(** * LLM Token Budget Planner: the calculation engine of [src/app.js]

    A shallow embedding of the [Calculator] module ([calculateAll] and
    [calculateCost]) together with the properties its specification states.

    Numbers.  JavaScript numbers are IEEE-754 doubles; here they are
    idealised as exact rationals ([Q]), compared with [==].  A field the
    code reads through [??] or [||] may be missing, so it is an [option Q].
    All the divisions of the engine are guarded by the code ([> 0] tests),
    apart from the divisions by the literal [1000].  The module [Binary64]
    repeats the arithmetic on doubles, to replay the scenarios with the
    rounding of the program. *)

From Stdlib Require Import QArith Qminmax Qround Qabs Lqa ZArith Lia.
From Stdlib Require Import String Ascii List DecimalString PrimFloat.
From stdpp Require Import base option list gmap strings.

Local Open Scope Q_scope.
Set Warnings "-inexact-float".

(** ** JavaScript operators on numbers *)

Module JS.

(** [x > y] *)
Definition gt (x y : Q) : bool := negb (Qle_bool x y).

(** [x >= y] *)
Definition ge (x y : Q) : bool := Qle_bool y x.

(** [o || d] on a numeric field: [undefined] and [0] are falsy. *)
Definition or_else (o : option Q) (d : Q) : Q :=
  match o with
  | Some x => if Qeq_bool x 0 then d else x
  | None => d
  end.

(** [o ?? d]: only a missing value is replaced. *)
Definition nullish {A : Type} (o : option A) (d : A) : A :=
  match o with
  | Some x => x
  | None => d
  end.

(** [Math.max(a, b)] and [Math.min(a, b)] *)
Definition Math_max (a b : Q) : Q := if Qle_bool a b then b else a.
Definition Math_min (a b : Q) : Q := if Qle_bool a b then a else b.

End JS.

(** ** Data model *)

Module Plan.
Record t : Type := mk {
  id : string;
  vendor : string;
  plan : string;
  currency : string;
  price_prompt_per_1k : Q;
  price_completion_per_1k : Q;
  monthly_commit_credit : option Q;
  free_tier_tokens : option Q;
  overage_multiplier : option Q
}.
End Plan.

Module Cost.
Record t : Type := mk {
  raw_cost : Q;
  cost_after_free_tier : Q;
  final_cost : Q
}.
End Cost.

(** ** [calculateCost] (app.js, lines 257-300) *)

Definition calculateCost (prompt_tokens completion_tokens : Q) (plan : Plan.t) : Cost.t :=
  let total_tokens := prompt_tokens + completion_tokens in
  let free_tier := JS.or_else (Plan.free_tier_tokens plan) 0 in
  let '(billable_prompt_tokens, billable_completion_tokens) :=
    if JS.gt free_tier 0 && JS.gt total_tokens 0 then
      let tokens_after_free := JS.Math_max 0 (total_tokens - free_tier) in
      let free_tier_ratio := tokens_after_free / total_tokens in
      (prompt_tokens * free_tier_ratio, completion_tokens * free_tier_ratio)
    else (prompt_tokens, completion_tokens) in
  let cost_after_free_tier :=
    (billable_prompt_tokens / 1000 * Plan.price_prompt_per_1k plan) +
    (billable_completion_tokens / 1000 * Plan.price_completion_per_1k plan) in
  let raw_cost :=
    (prompt_tokens / 1000 * Plan.price_prompt_per_1k plan) +
    (completion_tokens / 1000 * Plan.price_completion_per_1k plan) in
  let commit := JS.or_else (Plan.monthly_commit_credit plan) 0 in
  let final_cost :=
    if JS.gt commit 0 then
      let overage_amount := JS.Math_max 0 (cost_after_free_tier - commit) in
      let overage_multiplier := JS.or_else (Plan.overage_multiplier plan) 1 in
      let overage_cost := overage_amount * overage_multiplier in
      JS.Math_min cost_after_free_tier commit + overage_cost
    else cost_after_free_tier in
  Cost.mk raw_cost cost_after_free_tier final_cost.

(** What the code reads from the three optional fields of a plan: the
    locals [free_tier], [commit] and [overage_multiplier]. *)
Definition free_tier_of (plan : Plan.t) : Q :=
  JS.or_else (Plan.free_tier_tokens plan) 0.
Definition commit_of (plan : Plan.t) : Q :=
  JS.or_else (Plan.monthly_commit_credit plan) 0.
Definition multiplier_of (plan : Plan.t) : Q :=
  JS.or_else (Plan.overage_multiplier plan) 1.

(** Field updates, [{ ...plan, key: value }]. *)
Definition set_free_tier_tokens (v : option Q) (plan : Plan.t) : Plan.t :=
  Plan.mk (Plan.id plan) (Plan.vendor plan) (Plan.plan plan) (Plan.currency plan)
          (Plan.price_prompt_per_1k plan) (Plan.price_completion_per_1k plan)
          (Plan.monthly_commit_credit plan) v (Plan.overage_multiplier plan).
Definition set_overage_multiplier (v : option Q) (plan : Plan.t) : Plan.t :=
  Plan.mk (Plan.id plan) (Plan.vendor plan) (Plan.plan plan) (Plan.currency plan)
          (Plan.price_prompt_per_1k plan) (Plan.price_completion_per_1k plan)
          (Plan.monthly_commit_credit plan) (Plan.free_tier_tokens plan) v.

(** ** Environments, results and totals *)

Module Thresholds.
Record t : Type := mk {
  warn : Q;
  critical : Q
}.
End Thresholds.

Module Env.
Record t : Type := mk {
  id : string;
  env_name : string;
  requests_per_day : Q;
  avg_tokens_per_request : Q;
  context_tokens : Q;
  cache_hit_rate : Q;
  cache_savings_factor : option Q;
  completion_share : option Q;
  days_per_month : Q;
  budget_currency : string;
  monthly_budget : Q;
  alert_thresholds : option Thresholds.t
}.
End Env.

(** The object pushed for an environment that has a plan. *)
Module Res.
Record t : Type := mk {
  env_id : string;
  env_name : string;
  plan_name : string;
  currency : string;
  budget : Q;
  budget_currency : string;
  monthly_tokens : Q;
  prompt_tokens : Q;
  completion_tokens : Q;
  raw_cost : Q;
  cost_after_free_tier : Q;
  final_cost : Q;
  utilization : Q;
  status : string;
  suggestion : string
}.
End Res.

(** An entry of [resultsPerEnv]: either the four-field object of lines
    153-158 ([env_id], [env_name], [error], [status]) or a full result. *)
Inductive EnvResult : Type :=
| ErrorResult (env_id env_name error status : string)
| Costed (r : Res.t).

Module Totals.
Record t : Type := mk {
  total_tokens : Q;
  prompt_tokens : Q;
  completion_tokens : Q;
  raw_cost : Q;
  final_cost : Q;
  budget : Q
}.
End Totals.

Module AppState.
Record t : Type := mk {
  environments : list Env.t;
  vendor_plans : list Plan.t;
  plan_assignment : gmap string string
}.
End AppState.

Module Output.
Record t : Type := mk {
  perEnv : list EnvResult;
  totals : Totals.t
}.
End Output.

(** ** [Number.prototype.toFixed]

    [x.toFixed(f)] picks the integer [n] with [n / 10^f] nearest to [|x|]
    (the larger one on a tie), prints it with at least [f + 1] digits and
    puts the point before the last [f]; a negative [x] gets a leading
    minus sign.  Here the exact rational is rounded.  (Beyond [10^21]
    JavaScript switches to exponent notation; the amounts printed here
    stay far below.) *)

Definition digits (n : Z) : string := NilZero.string_of_uint (N.to_uint (Z.to_N n)).

Fixpoint zeros (k : nat) : string :=
  match k with
  | O => EmptyString
  | S k' => String "0" (zeros k')
  end.

Definition pad_left (width : nat) (s : string) : string :=
  (zeros (width - String.length s) ++ s)%string.

Definition toFixed (f : nat) (x : Q) : string :=
  let sign := if JS.gt 0 x then "-"%string else ""%string in
  let n := Qfloor (Qabs x * inject_Z (10 ^ Z.of_nat f) + (1 # 2)) in
  let m := digits n in
  if Nat.eqb f 0 then (sign ++ m)%string
  else
    let m' := pad_left (S f) m in
    let k := String.length m' in
    (sign ++ substring 0 (k - f) m' ++ "." ++ substring (k - f) f m')%string.

(** ** The loop body of [calculateAll] for an environment with a plan
    (app.js, lines 162-233) *)

Definition effective_tokens_per_request (env : Env.t) : Q :=
  let cache_savings_factor := JS.nullish (Env.cache_savings_factor env) 0.8 in
  Env.avg_tokens_per_request env +
  (Env.context_tokens env * (1 - Env.cache_hit_rate env * cache_savings_factor)).

Definition default_thresholds : Thresholds.t := Thresholds.mk 0.8 1.0.

(** The local [thresholds] of line 190. *)
Definition thresholds_of (env : Env.t) : Thresholds.t :=
  JS.nullish (Env.alert_thresholds env) default_thresholds.

Definition classify (utilization : Q) (thresholds : Thresholds.t) : string :=
  if JS.ge utilization (Thresholds.critical thresholds) then "RED"
  else if JS.ge utilization (Thresholds.warn thresholds) then "AMBER"
  else "GREEN".

Definition suggest (status currency : string) (final_cost monthly_budget : Q)
    (thresholds : Thresholds.t) : string :=
  if (String.eqb status "RED" || String.eqb status "AMBER")%bool then
    let shortfall := final_cost - monthly_budget in
    let suggestion :=
      if JS.gt shortfall 0
      then ("Budget shortfall of " ++ currency ++ " " ++ toFixed 2 shortfall ++ ". ")%string
      else ""%string in
    let target_cost := monthly_budget * Thresholds.warn thresholds in
    let percent_to_reduce :=
      if JS.gt final_cost 0 then (final_cost - target_cost) / final_cost else 0 in
    if JS.gt percent_to_reduce 0
    then (suggestion ++ "To reach safety (sub-"
            ++ toFixed 0 (Thresholds.warn thresholds * 100)
            ++ "%), reduce token usage by ~"
            ++ toFixed 0 (percent_to_reduce * 100)
            ++ "% or raise budget.")%string
    else suggestion
  else ""%string.

Definition evaluate (env : Env.t) (plan : Plan.t) : Res.t :=
  let effective := effective_tokens_per_request env in
  let monthly_tokens := Env.requests_per_day env * effective * Env.days_per_month env in
  let completion_share := JS.nullish (Env.completion_share env) 0.4 in
  let prompt_share := 1 - completion_share in
  let prompt_tokens := monthly_tokens * prompt_share in
  let completion_tokens := monthly_tokens * completion_share in
  let costResult := calculateCost prompt_tokens completion_tokens plan in
  let utilization :=
    if JS.gt (Env.monthly_budget env) 0
    then Cost.final_cost costResult / Env.monthly_budget env
    else 0 in
  let thresholds := JS.nullish (Env.alert_thresholds env) default_thresholds in
  let status := classify utilization thresholds in
  let suggestion :=
    suggest status (Plan.currency plan) (Cost.final_cost costResult)
            (Env.monthly_budget env) thresholds in
  {| Res.env_id := Env.id env;
     Res.env_name := Env.env_name env;
     Res.plan_name := (Plan.vendor plan ++ " - " ++ Plan.plan plan)%string;
     Res.currency := Plan.currency plan;
     Res.budget := Env.monthly_budget env;
     Res.budget_currency := Env.budget_currency env;
     Res.monthly_tokens := monthly_tokens;
     Res.prompt_tokens := prompt_tokens;
     Res.completion_tokens := completion_tokens;
     Res.raw_cost := Cost.raw_cost costResult;
     Res.cost_after_free_tier := Cost.cost_after_free_tier costResult;
     Res.final_cost := Cost.final_cost costResult;
     Res.utilization := utilization;
     Res.status := status;
     Res.suggestion := suggestion |}.

(** ** [calculateAll] (app.js, lines 133-248)

    The function keeps two mutable locals, the array [resultsPerEnv] and
    the object [totals]; the loop pushes to the first and adds to the
    second.  They are threaded here as an explicit frame, and the two
    declarations at the top of the function overwrite whatever the frame
    held before the call. *)

Module Frame.
Record t : Type := mk {
  resultsPerEnv : list EnvResult;
  totals : Totals.t
}.
End Frame.

Definition M (A : Type) : Type := Frame.t -> A * Frame.t.

Definition ret {A : Type} (a : A) : M A := fun s => (a, s).

Definition bind {A B : Type} (m : M A) (k : A -> M B) : M B :=
  fun s => let (a, s') := m s in k a s'.

Notation "m1 ;; m2" := (bind m1 (fun _ => m2))
  (at level 100, m2 at level 200, right associativity).

Definition get : M Frame.t := fun s => (s, s).

Definition put (s : Frame.t) : M unit := fun _ => (tt, s).

(** [resultsPerEnv.push(r)] *)
Definition push (r : EnvResult) : M unit :=
  fun s => (tt, Frame.mk (Frame.resultsPerEnv s ++ [r]) (Frame.totals s)).

(** The six [totals.f += ...] of lines 238-244. *)
Definition add_to_totals (r : Res.t) (monthly_budget : Q) : M unit :=
  fun s =>
    let t := Frame.totals s in
    (tt, Frame.mk (Frame.resultsPerEnv s)
           {| Totals.total_tokens := Totals.total_tokens t + Res.monthly_tokens r;
              Totals.prompt_tokens := Totals.prompt_tokens t + Res.prompt_tokens r;
              Totals.completion_tokens := Totals.completion_tokens t + Res.completion_tokens r;
              Totals.raw_cost := Totals.raw_cost t + Res.raw_cost r;
              Totals.final_cost := Totals.final_cost t + Res.final_cost r;
              Totals.budget := Totals.budget t + monthly_budget |}).

(** [for (const x of l) body] *)
Fixpoint for_of {A : Type} (l : list A) (body : A -> M unit) : M unit :=
  match l with
  | [] => ret tt
  | x :: l' => body x ;; for_of l' body
  end.

(** [new Map(vendor_plans.map(p => [p.id, p]))]: a later plan replaces an
    earlier one with the same id. *)
Definition plans_map (vendor_plans : list Plan.t) : gmap string Plan.t :=
  foldl (fun m p => <[Plan.id p := p]> m) ∅ vendor_plans.

(** [plansMap.get(plan_assignment[env.id])]; a missing assignment gives
    [undefined], which is the key of no plan. *)
Definition resolve_plan (plansMap : gmap string Plan.t)
    (plan_assignment : gmap string string) (env : Env.t) : option Plan.t :=
  match plan_assignment !! Env.id env with
  | Some planId => plansMap !! planId
  | None => None
  end.

Definition no_plan_result (env : Env.t) : EnvResult :=
  ErrorResult (Env.id env) (Env.env_name env) "No valid plan assigned." "N/A".

Definition loop_body (plansMap : gmap string Plan.t)
    (plan_assignment : gmap string string) (env : Env.t) : M unit :=
  match resolve_plan plansMap plan_assignment env with
  | None => push (no_plan_result env)
  | Some plan =>
      let envResult := evaluate env plan in
      push (Costed envResult) ;;
      add_to_totals envResult (Env.monthly_budget env)
  end.

Definition zero_totals : Totals.t := Totals.mk 0 0 0 0 0 0.

Definition calculateAll (state : AppState.t) : M Output.t :=
  put (Frame.mk [] zero_totals) ;;
  let plansMap := plans_map (AppState.vendor_plans state) in
  for_of (AppState.environments state)
         (loop_body plansMap (AppState.plan_assignment state)) ;;
  bind get (fun s => ret (Output.mk (Frame.resultsPerEnv s) (Frame.totals s))).

(** ** The same arithmetic on doubles

    The engine once more on binary64 numbers, with the rounding, the
    [NaN] and the signed zero of JavaScript, to replay the scenarios with
    the numbers the program really computes. *)

Module Binary64.
Local Open Scope float_scope.

Definition gt (x y : float) : bool := y <? x.

Definition or_else (o : option float) (d : float) : float :=
  match o with
  | Some x => if (x =? 0) || is_nan x then d else x
  | None => d
  end.

Definition Math_max (a b : float) : float :=
  if is_nan a || is_nan b then nan else if a <? b then b else a.

Definition Math_min (a b : float) : float :=
  if is_nan a || is_nan b then nan else if b <? a then b else a.

(** Lines 164-175: effective tokens per request, monthly tokens, prompt
    tokens and completion tokens. *)
Definition tokens (requests_per_day avg_tokens_per_request context_tokens
    cache_hit_rate cache_savings_factor completion_share days_per_month : float)
    : float * float * float * float :=
  let effective_tokens_per_request :=
    avg_tokens_per_request +
    (context_tokens * (1 - cache_hit_rate * cache_savings_factor)) in
  let monthly_tokens :=
    requests_per_day * effective_tokens_per_request * days_per_month in
  let prompt_share := 1 - completion_share in
  let prompt_tokens := monthly_tokens * prompt_share in
  let completion_tokens := monthly_tokens * completion_share in
  (effective_tokens_per_request, monthly_tokens, prompt_tokens, completion_tokens).

(** Lines 257-300; the result is (raw cost, cost after free tier, final
    cost). *)
Definition calculateCost (prompt_tokens completion_tokens : float)
    (price_prompt_per_1k price_completion_per_1k : float)
    (free_tier_tokens monthly_commit_credit overage_multiplier : option float)
    : float * float * float :=
  let total_tokens := prompt_tokens + completion_tokens in
  let free_tier := or_else free_tier_tokens 0 in
  let '(billable_prompt_tokens, billable_completion_tokens) :=
    if gt free_tier 0 && gt total_tokens 0 then
      let tokens_after_free := Math_max 0 (total_tokens - free_tier) in
      let free_tier_ratio := tokens_after_free / total_tokens in
      (prompt_tokens * free_tier_ratio, completion_tokens * free_tier_ratio)
    else (prompt_tokens, completion_tokens) in
  let cost_after_free_tier :=
    (billable_prompt_tokens / 1000 * price_prompt_per_1k) +
    (billable_completion_tokens / 1000 * price_completion_per_1k) in
  let raw_cost :=
    (prompt_tokens / 1000 * price_prompt_per_1k) +
    (completion_tokens / 1000 * price_completion_per_1k) in
  let commit := or_else monthly_commit_credit 0 in
  let final_cost :=
    if gt commit 0 then
      let overage_amount := Math_max 0 (cost_after_free_tier - commit) in
      let overage_multiplier := or_else overage_multiplier 1 in
      let overage_cost := overage_amount * overage_multiplier in
      Math_min cost_after_free_tier commit + overage_cost
    else cost_after_free_tier in
  (raw_cost, cost_after_free_tier, final_cost).

End Binary64.

(** ** What one pass of the loop contributes *)

(** The entry pushed for [env]. *)
Definition env_result (plansMap : gmap string Plan.t)
    (plan_assignment : gmap string string) (env : Env.t) : EnvResult :=
  match resolve_plan plansMap plan_assignment env with
  | None => no_plan_result env
  | Some plan => Costed (evaluate env plan)
  end.

(** The totals after the pass for [env]. *)
Definition totals_step (plansMap : gmap string Plan.t)
    (plan_assignment : gmap string string) (t : Totals.t) (env : Env.t) : Totals.t :=
  match resolve_plan plansMap plan_assignment env with
  | None => t
  | Some plan =>
      let r := evaluate env plan in
      {| Totals.total_tokens := Totals.total_tokens t + Res.monthly_tokens r;
         Totals.prompt_tokens := Totals.prompt_tokens t + Res.prompt_tokens r;
         Totals.completion_tokens := Totals.completion_tokens t + Res.completion_tokens r;
         Totals.raw_cost := Totals.raw_cost t + Res.raw_cost r;
         Totals.final_cost := Totals.final_cost t + Res.final_cost r;
         Totals.budget := Totals.budget t + Env.monthly_budget env |}
  end.

(** ** Ranges of the data model (section 3 of the specification) *)

Definition opt_nonneg (o : option Q) : Prop :=
  match o with
  | Some x => 0 <= x
  | None => True
  end.

Definition opt_fraction (o : option Q) : Prop :=
  match o with
  | Some x => 0 <= x <= 1
  | None => True
  end.

Definition plan_nonneg (plan : Plan.t) : Prop :=
  0 <= Plan.price_prompt_per_1k plan /\
  0 <= Plan.price_completion_per_1k plan /\
  opt_nonneg (Plan.monthly_commit_credit plan) /\
  opt_nonneg (Plan.free_tier_tokens plan) /\
  opt_nonneg (Plan.overage_multiplier plan).

Definition env_in_range (env : Env.t) : Prop :=
  0 <= Env.requests_per_day env /\
  0 <= Env.avg_tokens_per_request env /\
  0 <= Env.context_tokens env /\
  0 <= Env.cache_hit_rate env <= 1 /\
  opt_fraction (Env.cache_savings_factor env) /\
  opt_fraction (Env.completion_share env) /\
  0 <= Env.days_per_month env.

(** An environment without a plan: no entry in [plan_assignment], the
    empty string (what deleting a plan leaves, line 676; no plan carries
    the empty id), or the id of no plan of the list. *)
Definition unassigned (plans : list Plan.t) (plan_assignment : gmap string string)
    (env : Env.t) : Prop :=
  plan_assignment !! Env.id env = None
  \/ (plan_assignment !! Env.id env = Some ""%string /\
      ""%string ∉ Plan.id <$> plans)
  \/ (exists planId, plan_assignment !! Env.id env = Some planId /\
                     planId ∉ Plan.id <$> plans).

(** ** The inputs of Scenario A *)

Definition scenarioA_plan (plan : Plan.t) : Prop :=
  Plan.price_prompt_per_1k plan == 0.002 /\
  Plan.price_completion_per_1k plan == 0.006 /\
  free_tier_of plan == 0 /\
  commit_of plan == 0.

Definition scenarioA_env (env : Env.t) : Prop :=
  Env.requests_per_day env == 100 /\
  Env.avg_tokens_per_request env == 1000 /\
  Env.context_tokens env == 200 /\
  Env.cache_hit_rate env == 0.5 /\
  JS.nullish (Env.cache_savings_factor env) 0.8 == 0.8 /\
  JS.nullish (Env.completion_share env) 0.4 == 0.4 /\
  Env.days_per_month env == 30.

(** ** Scenario data (section 8 of the specification) *)

Definition planA : Plan.t :=
  Plan.mk "plan_1" "OpenAI" "Test-Plan (from prompt)" "EUR"
          0.002 0.006 (Some 0) (Some 0) (Some 1).

Definition planB : Plan.t := set_free_tier_tokens (Some 1000000) planA.

Definition envA : Env.t :=
  Env.mk "env_1" "Production (Test Scenario)" 100 1000 200 0.5 (Some 0.8)
         (Some 0.4) 30 "EUR" 20 (Some default_thresholds).

(** A plan with a commit of 5 and an overage multiplier set to 0. *)
Definition planZeroMultiplier : Plan.t :=
  Plan.mk "plan_z" "Other" "Commit 5, multiplier 0" "USD"
          0.002 0.006 (Some 5) (Some 0) (Some 0).

(** Scenario C: commit 5, overage multiplier 1.5; the prices are chosen
    so that 8493.6 prompt tokens cost 8.4936. *)
Definition planC : Plan.t :=
  Plan.mk "plan_c" "Other" "Commit 5, multiplier 1.5" "USD"
          1 1 (Some 5) (Some 0) (Some 1.5).


(** The second environment of [DEFAULT_STATE]. *)
Definition envStaging : Env.t :=
  Env.mk "env_2" "Staging" 50 2000 1000 0.1 (Some 0.8) (Some 0.3) 22 "USD" 50
         (Some default_thresholds).

(** Scenario D: Scenario A with a budget of 0. *)
Definition envD : Env.t :=
  Env.mk "env_1" "Production (Test Scenario)" 100 1000 200 0.5 (Some 0.8)
         (Some 0.4) 30 "EUR" 0 (Some default_thresholds).

(** A budget of 0 together with alert thresholds of 0. *)
Definition envZeroThresholds : Env.t :=
  Env.mk "env_1" "Production (Test Scenario)" 100 1000 200 0.5 (Some 0.8)
         (Some 0.4) 30 "EUR" 0 (Some (Thresholds.mk 0 0)).

(** Scenario E: after its plan was deleted, "env_2" is assigned the empty
    string. *)
Definition assignmentE : gmap string string :=
  <["env_2" := ""]> (<["env_1" := "plan_1"]> ∅).

Definition assignmentA : gmap string string := <["env_1" := "plan_1"]> ∅.

Definition empty_frame : Frame.t := Frame.mk [] zero_totals.

(** The second plan of [DEFAULT_STATE], and [DEFAULT_STATE] itself. *)
Definition planOpus : Plan.t :=
  Plan.mk "plan_2" "Anthropic" "Opus" "USD" 0.015 0.075 (Some 0) (Some 0) (Some 1).

Definition DEFAULT_STATE : AppState.t :=
  AppState.mk [envA; envStaging] [planA; planOpus]
              (<["env_2" := "plan_2"]> (<["env_1" := "plan_1"]> ∅)).

Definition stateA : AppState.t := AppState.mk [envA] [planA] assignmentA.
Definition stateD : AppState.t := AppState.mk [envD] [planA] assignmentA.
Definition stateZeroThresholds : AppState.t :=
  AppState.mk [envZeroThresholds] [planA] assignmentA.
Definition stateE : AppState.t :=
  AppState.mk [envA; envStaging] [planA] assignmentE.
Definition stateE_rest : AppState.t := AppState.mk [envA] [planA] assignmentE.

(** Scenario A with a free tier that covers all 3,360,000 tokens. *)
Definition planFree : Plan.t := set_free_tier_tokens (Some 5000000) planA.

(** ** Reading the output of [calculateAll] *)

(** The [env_id] and [env_name] every entry of [perEnv] carries. *)
Definition result_env_id (r : EnvResult) : string :=
  match r with
  | ErrorResult env_id _ _ _ => env_id
  | Costed x => Res.env_id x
  end.

Definition result_env_name (r : EnvResult) : string :=
  match r with
  | ErrorResult _ env_name _ _ => env_name
  | Costed x => Res.env_name x
  end.

(** The sum of a field over the entries that carry costs. *)
Definition sum_costed (f : Res.t -> Q) (perEnv : list EnvResult) : Q :=
  foldr (fun r acc => match r with
                      | Costed x => f x + acc
                      | ErrorResult _ _ _ _ => acc
                      end) 0 perEnv.

(** ** Further sample data *)

(** A state whose only environment was left without a plan. *)
Definition stateOrphan : AppState.t := AppState.mk [envStaging] [planA] assignmentE.

(** An environment that sends no requests. *)
Definition envIdle : Env.t :=
  Env.mk "env_idle" "Idle" 0 1000 200 0.5 (Some 0.8) (Some 0.4) 30 "EUR" 20
         (Some default_thresholds).

(** ** The state store: [State.update] and [State.reset]
    (app.js, lines 105-117)

    Writing to [localStorage] and dispatching the [stateChange] event are
    left out; what is modelled is the value of [currentState]. *)

Module Partial.
Record t : Type := mk {
  environments : option (list Env.t);
  vendor_plans : option (list Plan.t);
  plan_assignment : option (gmap string string)
}.
End Partial.

(** [{ ...currentState, ...partialState }]: a key of [partialState]
    replaces the one of [currentState]. *)
Definition State_update (partialState : Partial.t) (currentState : AppState.t)
    : AppState.t :=
  AppState.mk
    (default (AppState.environments currentState) (Partial.environments partialState))
    (default (AppState.vendor_plans currentState) (Partial.vendor_plans partialState))
    (default (AppState.plan_assignment currentState)
             (Partial.plan_assignment partialState)).

(** [{ ...state }] *)
Definition spread (state : AppState.t) : Partial.t :=
  Partial.mk (Some (AppState.environments state))
             (Some (AppState.vendor_plans state))
             (Some (AppState.plan_assignment state)).

(** ** The controller: [handleButtonClick] (app.js, lines 661-748)

    A handler returns the new [currentState]; [None] stands for the
    [TypeError] the handler throws, which leaves the state as it was. *)

(** [delete-plan], lines 667-682.  [state.vendor_plans[index].id] throws
    when there is no plan at [index]; otherwise the plan is spliced out
    and every assignment equal to its id is set to the empty string. *)
Definition delete_plan (index : nat) (state : AppState.t) : option AppState.t :=
  match AppState.vendor_plans state !! index with
  | None => None
  | Some plan =>
      let planId := Plan.id plan in
      let newState :=
        Partial.mk
          (Some (AppState.environments state))
          (Some (delete index (AppState.vendor_plans state)))
          (Some ((fun assigned => if String.eqb assigned planId then ""%string
                                  else assigned)
                   <$> AppState.plan_assignment state)) in
      Some (State_update newState state)
  end.

(** [delete-env], lines 684-692. *)
Definition delete_env (index : nat) (state : AppState.t) : option AppState.t :=
  match AppState.environments state !! index with
  | None => None
  | Some env =>
      let envId := Env.id env in
      let newState :=
        Partial.mk
          (Some (delete index (AppState.environments state)))
          (Some (AppState.vendor_plans state))
          (Some (delete envId (AppState.plan_assignment state))) in
      Some (State_update newState state)
  end.

(** [add-plan-btn], lines 696-706; [now] is [Date.now()]. *)
Definition new_plan (now : Z) : Plan.t :=
  Plan.mk ("plan_" ++ digits now) "Other" "New Plan" "USD"
          0.01 0.03 (Some 0) (Some 0) (Some 1.0).

Definition add_plan (now : Z) (state : AppState.t) : AppState.t :=
  State_update
    (Partial.mk None (Some (AppState.vendor_plans state ++ [new_plan now])) None)
    state.

(** [add-env-btn], lines 707-719. *)
Definition new_env (now : Z) : Env.t :=
  Env.mk ("env_" ++ digits now) "New Environment" 10 1000 500 0 (Some 0.8)
         (Some 0.4) 30 "USD" 10 (Some (Thresholds.mk 0.8 1.0)).

Definition add_env (now : Z) (state : AppState.t) : AppState.t :=
  State_update
    (Partial.mk (Some (AppState.environments state ++ [new_env now])) None None)
    state.

(** ** The controller: [updateStateFromInput] (app.js, lines 773-815) *)

(** What the handler reads from the input element: [parsed] is
    [parseFloat(el.value)], [min] and [max] are [parseFloat(el.min)] and
    [parseFloat(el.max)], with [None] for [NaN]; [index], [key] and
    [envId] are the [data-] attributes. *)
Module Input.
Record t : Type := mk {
  type : string;
  value : string;
  parsed : option Q;
  min : option Q;
  max : option Q;
  index : nat;
  key : string;
  envId : string
}.
End Input.

Inductive Value : Type :=
| Num (q : Q)
| Str (s : string).

(** Lines 778-787: a number input gives its parsed value, 0 when that is
    [NaN], raised to [min] and then lowered to [max]; any other input
    gives its text. *)
Definition input_value (el : Input.t) : Value :=
  if String.eqb (Input.type el) "number" then
    let value := JS.nullish (Input.parsed el) 0 in
    let value :=
      match Input.min el with
      | Some min => if JS.gt min value then min else value
      | None => value
      end in
    let value :=
      match Input.max el with
      | Some max => if JS.gt value max then max else value
      | None => value
      end in
    Num value
  else Str (Input.value el).

(** [{ ...plan, [key]: value }] for the keys the plan table renders;
    [None] when the object built is outside the record type (another
    key, or a value of the other kind). *)
Definition set_plan_key (key : string) (value : Value) (p : Plan.t) : option Plan.t :=
  match value with
  | Str s =>
      if String.eqb key "vendor" then
        Some (Plan.mk (Plan.id p) s (Plan.plan p) (Plan.currency p)
                (Plan.price_prompt_per_1k p) (Plan.price_completion_per_1k p)
                (Plan.monthly_commit_credit p) (Plan.free_tier_tokens p)
                (Plan.overage_multiplier p))
      else if String.eqb key "plan" then
        Some (Plan.mk (Plan.id p) (Plan.vendor p) s (Plan.currency p)
                (Plan.price_prompt_per_1k p) (Plan.price_completion_per_1k p)
                (Plan.monthly_commit_credit p) (Plan.free_tier_tokens p)
                (Plan.overage_multiplier p))
      else if String.eqb key "currency" then
        Some (Plan.mk (Plan.id p) (Plan.vendor p) (Plan.plan p) s
                (Plan.price_prompt_per_1k p) (Plan.price_completion_per_1k p)
                (Plan.monthly_commit_credit p) (Plan.free_tier_tokens p)
                (Plan.overage_multiplier p))
      else None
  | Num q =>
      if String.eqb key "price_prompt_per_1k" then
        Some (Plan.mk (Plan.id p) (Plan.vendor p) (Plan.plan p) (Plan.currency p)
                q (Plan.price_completion_per_1k p)
                (Plan.monthly_commit_credit p) (Plan.free_tier_tokens p)
                (Plan.overage_multiplier p))
      else if String.eqb key "price_completion_per_1k" then
        Some (Plan.mk (Plan.id p) (Plan.vendor p) (Plan.plan p) (Plan.currency p)
                (Plan.price_prompt_per_1k p) q
                (Plan.monthly_commit_credit p) (Plan.free_tier_tokens p)
                (Plan.overage_multiplier p))
      else if String.eqb key "monthly_commit_credit" then
        Some (Plan.mk (Plan.id p) (Plan.vendor p) (Plan.plan p) (Plan.currency p)
                (Plan.price_prompt_per_1k p) (Plan.price_completion_per_1k p)
                (Some q) (Plan.free_tier_tokens p) (Plan.overage_multiplier p))
      else if String.eqb key "free_tier_tokens" then
        Some (set_free_tier_tokens (Some q) p)
      else if String.eqb key "overage_multiplier" then
        Some (set_overage_multiplier (Some q) p)
      else None
  end.

(** [{ ...env, [key]: value }] for the keys the environment table
    renders. *)
Definition set_env_key (key : string) (value : Value) (e : Env.t) : option Env.t :=
  match value with
  | Str s =>
      if String.eqb key "env_name" then
        Some (Env.mk (Env.id e) s (Env.requests_per_day e)
                (Env.avg_tokens_per_request e) (Env.context_tokens e)
                (Env.cache_hit_rate e) (Env.cache_savings_factor e)
                (Env.completion_share e) (Env.days_per_month e)
                (Env.budget_currency e) (Env.monthly_budget e)
                (Env.alert_thresholds e))
      else if String.eqb key "budget_currency" then
        Some (Env.mk (Env.id e) (Env.env_name e) (Env.requests_per_day e)
                (Env.avg_tokens_per_request e) (Env.context_tokens e)
                (Env.cache_hit_rate e) (Env.cache_savings_factor e)
                (Env.completion_share e) (Env.days_per_month e)
                s (Env.monthly_budget e) (Env.alert_thresholds e))
      else None
  | Num q =>
      if String.eqb key "requests_per_day" then
        Some (Env.mk (Env.id e) (Env.env_name e) q
                (Env.avg_tokens_per_request e) (Env.context_tokens e)
                (Env.cache_hit_rate e) (Env.cache_savings_factor e)
                (Env.completion_share e) (Env.days_per_month e)
                (Env.budget_currency e) (Env.monthly_budget e)
                (Env.alert_thresholds e))
      else if String.eqb key "avg_tokens_per_request" then
        Some (Env.mk (Env.id e) (Env.env_name e) (Env.requests_per_day e)
                q (Env.context_tokens e)
                (Env.cache_hit_rate e) (Env.cache_savings_factor e)
                (Env.completion_share e) (Env.days_per_month e)
                (Env.budget_currency e) (Env.monthly_budget e)
                (Env.alert_thresholds e))
      else if String.eqb key "context_tokens" then
        Some (Env.mk (Env.id e) (Env.env_name e) (Env.requests_per_day e)
                (Env.avg_tokens_per_request e) q
                (Env.cache_hit_rate e) (Env.cache_savings_factor e)
                (Env.completion_share e) (Env.days_per_month e)
                (Env.budget_currency e) (Env.monthly_budget e)
                (Env.alert_thresholds e))
      else if String.eqb key "cache_hit_rate" then
        Some (Env.mk (Env.id e) (Env.env_name e) (Env.requests_per_day e)
                (Env.avg_tokens_per_request e) (Env.context_tokens e)
                q (Env.cache_savings_factor e)
                (Env.completion_share e) (Env.days_per_month e)
                (Env.budget_currency e) (Env.monthly_budget e)
                (Env.alert_thresholds e))
      else if String.eqb key "cache_savings_factor" then
        Some (Env.mk (Env.id e) (Env.env_name e) (Env.requests_per_day e)
                (Env.avg_tokens_per_request e) (Env.context_tokens e)
                (Env.cache_hit_rate e) (Some q)
                (Env.completion_share e) (Env.days_per_month e)
                (Env.budget_currency e) (Env.monthly_budget e)
                (Env.alert_thresholds e))
      else if String.eqb key "completion_share" then
        Some (Env.mk (Env.id e) (Env.env_name e) (Env.requests_per_day e)
                (Env.avg_tokens_per_request e) (Env.context_tokens e)
                (Env.cache_hit_rate e) (Env.cache_savings_factor e)
                (Some q) (Env.days_per_month e)
                (Env.budget_currency e) (Env.monthly_budget e)
                (Env.alert_thresholds e))
      else if String.eqb key "days_per_month" then
        Some (Env.mk (Env.id e) (Env.env_name e) (Env.requests_per_day e)
                (Env.avg_tokens_per_request e) (Env.context_tokens e)
                (Env.cache_hit_rate e) (Env.cache_savings_factor e)
                (Env.completion_share e) q
                (Env.budget_currency e) (Env.monthly_budget e)
                (Env.alert_thresholds e))
      else if String.eqb key "monthly_budget" then
        Some (Env.mk (Env.id e) (Env.env_name e) (Env.requests_per_day e)
                (Env.avg_tokens_per_request e) (Env.context_tokens e)
                (Env.cache_hit_rate e) (Env.cache_savings_factor e)
                (Env.completion_share e) (Env.days_per_month e)
                (Env.budget_currency e) q (Env.alert_thresholds e))
      else None
  end.

(** [newItems[index] = { ...newItems[index], [key]: value }] on a copy of
    the array.  Past the end JavaScript would store an object holding the
    one key, which is no record of the table: [None]. *)
Definition update_at {A : Type} (set : A -> option A) (index : nat) (items : list A)
    : option (list A) :=
  match items !! index with
  | Some item =>
      match set item with
      | Some item' => Some (<[index := item']> items)
      | None => None
      end
  | None => None
  end.

Definition updateStateFromInput (el : Input.t) (table : string) (state : AppState.t)
    : option AppState.t :=
  let value := input_value el in
  if String.eqb table "plans" then
    match update_at (set_plan_key (Input.key el) value) (Input.index el)
                    (AppState.vendor_plans state) with
    | Some newPlans =>
        Some (State_update (Partial.mk (Some (AppState.environments state))
                              (Some newPlans)
                              (Some (AppState.plan_assignment state))) state)
    | None => None
    end
  else if String.eqb table "envs" then
    match update_at (set_env_key (Input.key el) value) (Input.index el)
                    (AppState.environments state) with
    | Some newEnvs =>
        Some (State_update (Partial.mk (Some newEnvs)
                              (Some (AppState.vendor_plans state))
                              (Some (AppState.plan_assignment state))) state)
    | None => None
    end
  else if String.eqb table "assignment" then
    match value with
    | Str planId =>
        let newAssignments :=
          <[Input.envId el := planId]> (AppState.plan_assignment state) in
        Some (State_update (Partial.mk (Some (AppState.environments state))
                              (Some (AppState.vendor_plans state))
                              (Some newAssignments)) state)
    | Num _ => None
    end
  else Some (State_update (spread state) state).

(** The number inputs the two tables render (lines 347-351 and 403-410):
    their [data-key] with their [min] and [max] attributes. *)
Definition plan_number_inputs : list (string * (option Q * option Q)) :=
  [ ("price_prompt_per_1k"%string, (Some 0, None));
    ("price_completion_per_1k"%string, (Some 0, None));
    ("free_tier_tokens"%string, (Some 0, None));
    ("monthly_commit_credit"%string, (Some 0, None));
    ("overage_multiplier"%string, (Some 0, None)) ].

Definition env_number_inputs : list (string * (option Q * option Q)) :=
  [ ("requests_per_day"%string, (Some 0, None));
    ("avg_tokens_per_request"%string, (Some 0, None));
    ("context_tokens"%string, (Some 0, None));
    ("cache_hit_rate"%string, (Some 0, Some 1));
    ("cache_savings_factor"%string, (Some 0, Some 1));
    ("completion_share"%string, (Some 0, Some 1));
    ("days_per_month"%string, (Some 1, Some 31));
    ("monthly_budget"%string, (Some 0, None)) ].

Fixpoint attributes_of (key : string) (inputs : list (string * (option Q * option Q)))
    : option (option Q * option Q) :=
  match inputs with
  | [] => None
  | (k, attributes) :: rest =>
      if String.eqb k key then Some attributes else attributes_of key rest
  end.

(** A rendered number input of row [index] after the user typed [typed],
    which [parseFloat] reads as [parsed]. *)
Definition number_input (inputs : list (string * (option Q * option Q)))
    (index : nat) (key typed : string) (parsed : option Q) : option Input.t :=
  match attributes_of key inputs with
  | Some (min, max) => Some (Input.mk "number" typed parsed min max index key "")
  | None => None
  end.

(** The plan selector of an environment row (lines 392-397) after the
    user picked the option with value [planId]. *)
Definition plan_selector (envId planId : string) : Input.t :=
  Input.mk "select-one" planId None None None 0 "" envId.

(** The inputs of the first rows after typing 7 into the cache hit rate
    (the input allows at most 1), -3 into the overage multiplier (at least
    0) and 20 into the days per month. *)
Definition inputHitRate : Input.t :=
  Input.mk "number" "7" (Some 7) (Some 0) (Some 1) 0 "cache_hit_rate" "".

Definition inputMultiplier : Input.t :=
  Input.mk "number" "-3" (Some (-3)) (Some 0) None 0 "overage_multiplier" "".

Definition inputDays : Input.t :=
  Input.mk "number" "20" (Some 20) (Some 1) (Some 31) 0 "days_per_month" "".

(** [DEFAULT_STATE] after deleting its first environment, and after
    picking the second plan for the first environment. *)
Definition stateEnvDeleted : AppState.t :=
  AppState.mk [envStaging] [planA; planOpus]
              (delete "env_1"%string (AppState.plan_assignment DEFAULT_STATE)).

Definition stateReassigned : AppState.t :=
  AppState.mk [envA; envStaging] [planA; planOpus]
              (<["env_1" := "plan_2"]> (AppState.plan_assignment DEFAULT_STATE)).

(** ** [Exporter.exportCSV] (app.js, lines 574-608)

    The text handed to [download]; [None] when the function returns
    before building it. *)

Definition quote_char : ascii := Ascii.ascii_of_nat 34.
Definition quote : string := String quote_char EmptyString.
Definition CRLF : string := String "013" (String "010" EmptyString).

(** The [replace] of line 602: every double quote is written twice. *)
Fixpoint escape_quotes (s : string) : string :=
  match s with
  | EmptyString => EmptyString
  | String c rest =>
      if Ascii.eqb c quote_char
      then String quote_char (String quote_char (escape_quotes rest))
      else String c (escape_quotes rest)
  end.

(** [Math.round(x)]: the nearest integer, the upper one on a tie. *)
Definition Math_round (x : Q) : Z := Qfloor (x + (1 # 2)).

(** An integer as [join] writes it. *)
Definition show_int (n : Z) : string :=
  if (n <? 0)%Z then ("-" ++ digits (- n))%string else digits n.

Definition csv_headers : list string :=
  [ "Environment"; "Status"; "Plan";
    "Final Cost"; "Currency"; "Budget"; "Budget Currency"; "Utilization %";
    "Total Tokens"; "Prompt Tokens"; "Completion Tokens"; "Raw Cost";
    "Suggestion" ]%string.

Definition csv_row (res : Res.t) : list string :=
  [ quote ++ Res.env_name res ++ quote;
    Res.status res;
    quote ++ Res.plan_name res ++ quote;
    toFixed 2 (Res.final_cost res);
    Res.currency res;
    toFixed 2 (Res.budget res);
    Res.budget_currency res;
    toFixed 2 (Res.utilization res * 100);
    show_int (Math_round (Res.monthly_tokens res));
    show_int (Math_round (Res.prompt_tokens res));
    show_int (Math_round (Res.completion_tokens res));
    toFixed 2 (Res.raw_cost res);
    quote ++ escape_quotes (Res.suggestion res) ++ quote ]%string.

Definition exportCSV (results : Output.t) : option string :=
  match Output.perEnv results with
  | [] => None
  | perEnv =>
      Some (foldl (fun csvContent res =>
                     match res with
                     | ErrorResult _ _ _ _ => csvContent
                     | Costed r =>
                         (csvContent ++ String.concat "," (csv_row r) ++ CRLF)%string
                     end)
                  (String.concat "," csv_headers ++ CRLF)%string
                  perEnv)
  end.

Fixpoint count_char (c : ascii) (s : string) : nat :=
  match s with
  | EmptyString => O
  | String c' rest =>
      if Ascii.eqb c' c then S (count_char c rest) else count_char c rest
  end.

(** ** The numbers of [renderCharts] (app.js, lines 500-545)

    The widths the cost chart is drawn with; the surrounding HTML, which
    formats amounts by the browser's locale, and the token chart are left
    out. *)

(** [r.final_cost || 0]; an error entry has no [final_cost]. *)
Definition chart_cost (r : EnvResult) : Q :=
  match r with
  | Costed x => JS.or_else (Some (Res.final_cost x)) 0
  | ErrorResult _ _ _ _ => 0
  end.

(** [Math.max(...perEnv.map(r => r.final_cost || 0), 1)] *)
Definition maxCost (perEnv : list EnvResult) : Q :=
  foldr JS.Math_max 1 (chart_cost <$> perEnv).

(** The width, in percent, of the cost bar of a costed entry, and whether
    the amount is written inside the bar. *)
Definition bar_width (perEnv : list EnvResult) (res : Res.t) : Q :=
  Res.final_cost res / maxCost perEnv * 100.

Definition label_inside (width : Q) : bool := JS.gt width 20.

(** ** The plan selector of [renderEnvironments] (app.js, lines 389-397)

    For each plan of the list, whether its option is rendered with the
    [selected] attribute: [p.id === assignedPlanId], which is false for
    every plan when the environment has no assignment. *)
Definition selected_options (plans : list Plan.t)
    (planAssignment : gmap string string) (env : Env.t) : list bool :=
  let assignedPlanId := planAssignment !! Env.id env in
  (fun p => match assignedPlanId with
            | Some assigned => String.eqb (Plan.id p) assigned
            | None => false
            end) <$> plans.

(** ** [updateStateFromInput] on plain objects (app.js, lines 773-815)

    The handler does not know the records: it copies the array, spreads
    the object at [index] (nothing, when there is none) and writes the one
    key.  Here a plan or an environment is an object, a finite map from
    keys to field values, and an array may have holes, so that the write
    past the end of the array is modelled as the code does it.  The
    functions [object_of_plan] and [object_of_env] give the object of a
    record; [updateStateFromInput] above is the view of the handler on
    records, with [None] when the resulting object is no record. *)

Inductive Field : Type :=
| FNum (q : Q)
| FStr (s : string)
| FThresholds (t : Thresholds.t).

Definition field_of (value : Value) : Field :=
  match value with
  | Num q => FNum q
  | Str s => FStr s
  end.

(** A property that may be missing from the object. *)
Definition set_optional (key : string) (o : option Field) (obj : gmap string Field)
    : gmap string Field :=
  match o with
  | Some f => <[key := f]> obj
  | None => obj
  end.

Definition object_of_plan (p : Plan.t) : gmap string Field :=
  set_optional "overage_multiplier" (FNum <$> Plan.overage_multiplier p)
    (set_optional "free_tier_tokens" (FNum <$> Plan.free_tier_tokens p)
       (set_optional "monthly_commit_credit" (FNum <$> Plan.monthly_commit_credit p)
          (<["price_completion_per_1k" := FNum (Plan.price_completion_per_1k p)]>
             (<["price_prompt_per_1k" := FNum (Plan.price_prompt_per_1k p)]>
                (<["currency" := FStr (Plan.currency p)]>
                   (<["plan" := FStr (Plan.plan p)]>
                      (<["vendor" := FStr (Plan.vendor p)]>
                         (<["id" := FStr (Plan.id p)]> ∅)))))))).

Definition object_of_env (e : Env.t) : gmap string Field :=
  set_optional "alert_thresholds" (FThresholds <$> Env.alert_thresholds e)
    (set_optional "completion_share" (FNum <$> Env.completion_share e)
       (set_optional "cache_savings_factor" (FNum <$> Env.cache_savings_factor e)
          (<["monthly_budget" := FNum (Env.monthly_budget e)]>
             (<["budget_currency" := FStr (Env.budget_currency e)]>
                (<["days_per_month" := FNum (Env.days_per_month e)]>
                   (<["cache_hit_rate" := FNum (Env.cache_hit_rate e)]>
                      (<["context_tokens" := FNum (Env.context_tokens e)]>
                         (<["avg_tokens_per_request" :=
                              FNum (Env.avg_tokens_per_request e)]>
                            (<["requests_per_day" := FNum (Env.requests_per_day e)]>
                               (<["env_name" := FStr (Env.env_name e)]>
                                  (<["id" := FStr (Env.id e)]> ∅))))))))))).

Module Objects.
Record t : Type := mk {
  environments : list (option (gmap string Field));
  vendor_plans : list (option (gmap string Field));
  plan_assignment : gmap string Value
}.
End Objects.

Definition objects_of_state (state : AppState.t) : Objects.t :=
  Objects.mk ((fun e => Some (object_of_env e)) <$> AppState.environments state)
             ((fun p => Some (object_of_plan p)) <$> AppState.vendor_plans state)
             (Str <$> AppState.plan_assignment state).

(** [{ ...items[index] }]: the properties of the object at [index], none
    for a hole or past the end. *)
Definition spread_at (index : nat) (items : list (option (gmap string Field)))
    : gmap string Field :=
  match items !! index with
  | Some (Some obj) => obj
  | _ => ∅
  end.

(** [items[index] = obj]: past the end the array grows, with holes up to
    [index]. *)
Definition array_set {A : Type} (index : nat) (x : A) (items : list (option A))
    : list (option A) :=
  if decide (index < length items)%nat
  then <[index := Some x]> items
  else items ++ replicate (index - length items) None ++ [Some x].

Definition updateStateFromInput_objects (el : Input.t) (table : string)
    (state : Objects.t) : Objects.t :=
  let value := input_value el in
  if String.eqb table "plans" then
    let newPlans :=
      array_set (Input.index el)
        (<[Input.key el := field_of value]>
           (spread_at (Input.index el) (Objects.vendor_plans state)))
        (Objects.vendor_plans state) in
    Objects.mk (Objects.environments state) newPlans (Objects.plan_assignment state)
  else if String.eqb table "envs" then
    let newEnvs :=
      array_set (Input.index el)
        (<[Input.key el := field_of value]>
           (spread_at (Input.index el) (Objects.environments state)))
        (Objects.environments state) in
    Objects.mk newEnvs (Objects.vendor_plans state) (Objects.plan_assignment state)
  else if String.eqb table "assignment" then
    Objects.mk (Objects.environments state) (Objects.vendor_plans state)
               (<[Input.envId el := value]> (Objects.plan_assignment state))
  else state.

(** The ranges the environment table enforces, budget included. *)
Definition env_valid (env : Env.t) : Prop :=
  env_in_range env /\ 0 <= Env.monthly_budget env.

(** Edits that arrive for row 4 of the two environments, and for row 5
    of the two plans, of [DEFAULT_STATE]. *)
Definition inputStaleEnv : Input.t :=
  Input.mk "number" "7" (Some 7) (Some 0) (Some 1) 4 "cache_hit_rate" "".

Definition inputStalePlan : Input.t :=
  Input.mk "number" "2" (Some 2) (Some 0) None 5 "overage_multiplier" "".

(** * Properties *)

(** ** The JavaScript operators *)

Lemma gt_true (x y : Q) : JS.gt x y = true <-> y < x.
Proof.
  unfold JS.gt. rewrite negb_true_iff. split; intros H.
  - apply Qnot_le_lt. intros Hle. apply Qle_bool_iff in Hle. congruence.
  - destruct (Qle_bool x y) eqn:E; [|reflexivity].
    apply Qle_bool_iff in E. lra.
Qed.

Lemma gt_false (x y : Q) : JS.gt x y = false <-> x <= y.
Proof.
  unfold JS.gt. rewrite negb_false_iff. apply Qle_bool_iff.
Qed.

Lemma ge_true (x y : Q) : JS.ge x y = true <-> y <= x.
Proof. unfold JS.ge. apply Qle_bool_iff. Qed.

Lemma ge_false (x y : Q) : JS.ge x y = false <-> x < y.
Proof.
  unfold JS.ge. split; intros H.
  - apply Qnot_le_lt. intros Hle. apply Qle_bool_iff in Hle. congruence.
  - destruct (Qle_bool y x) eqn:E; [|reflexivity].
    apply Qle_bool_iff in E. lra.
Qed.

Lemma Math_max_Qmax (a b : Q) : JS.Math_max a b == Qmax a b.
Proof.
  unfold JS.Math_max. destruct (Qle_bool a b) eqn:E.
  - apply Qle_bool_iff in E. symmetry. apply Q.max_r. exact E.
  - assert (b < a) by (apply gt_true; unfold JS.gt; rewrite E; reflexivity).
    symmetry. apply Q.max_l. lra.
Qed.

Lemma Math_min_Qmin (a b : Q) : JS.Math_min a b == Qmin a b.
Proof.
  unfold JS.Math_min. destruct (Qle_bool a b) eqn:E.
  - apply Qle_bool_iff in E. symmetry. apply Q.min_l. exact E.
  - assert (b < a) by (apply gt_true; unfold JS.gt; rewrite E; reflexivity).
    symmetry. apply Q.min_r. lra.
Qed.

Lemma Math_max_0_nonneg (x : Q) : 0 <= JS.Math_max 0 x.
Proof.
  unfold JS.Math_max. destruct (Qle_bool 0 x) eqn:E.
  - apply Qle_bool_iff. exact E.
  - lra.
Qed.

Lemma Math_max_0_le (x t : Q) : x <= t -> 0 <= t -> JS.Math_max 0 x <= t.
Proof.
  intros Hx Ht. unfold JS.Math_max. destruct (Qle_bool 0 x); assumption.
Qed.

Lemma Math_max_0_nonpos (x : Q) : x <= 0 -> JS.Math_max 0 x == 0.
Proof.
  intros Hx. unfold JS.Math_max. destruct (Qle_bool 0 x) eqn:E.
  - apply Qle_bool_iff in E. lra.
  - reflexivity.
Qed.

Lemma or_else_eq0 (x d : Q) : x == 0 -> JS.or_else (Some x) d = d.
Proof.
  intros Hx. unfold JS.or_else.
  destruct (Qeq_bool x 0) eqn:E; [reflexivity|].
  apply Qeq_bool_neq in E. contradiction.
Qed.

Lemma Qdiv_1000 (x : Q) : x / 1000 == x * (1 # 1000).
Proof. reflexivity. Qed.

Lemma ratio_bounds (a t : Q) : 0 < t -> 0 <= a <= t -> 0 <= a / t <= 1.
Proof.
  intros Ht [Ha0 Hat]. split.
  - apply Qle_shift_div_l; lra.
  - apply Qle_shift_div_r; lra.
Qed.

(** ** Unfolding [calculateCost] field by field *)

Lemma raw_cost_eq (p c : Q) (plan : Plan.t) :
  Cost.raw_cost (calculateCost p c plan) =
  p / 1000 * Plan.price_prompt_per_1k plan +
  c / 1000 * Plan.price_completion_per_1k plan.
Proof.
  unfold calculateCost.
  destruct (JS.gt _ 0 && JS.gt (p + c) 0); reflexivity.
Qed.

Lemma cost_after_free_tier_eq (p c : Q) (plan : Plan.t) :
  Cost.cost_after_free_tier (calculateCost p c plan) =
  if JS.gt (free_tier_of plan) 0 && JS.gt (p + c) 0 then
    let r := JS.Math_max 0 (p + c - free_tier_of plan) / (p + c) in
    p * r / 1000 * Plan.price_prompt_per_1k plan +
    c * r / 1000 * Plan.price_completion_per_1k plan
  else
    p / 1000 * Plan.price_prompt_per_1k plan +
    c / 1000 * Plan.price_completion_per_1k plan.
Proof.
  unfold calculateCost, free_tier_of.
  destruct (JS.gt _ 0 && JS.gt (p + c) 0); reflexivity.
Qed.

Lemma final_cost_eq (p c : Q) (plan : Plan.t) :
  Cost.final_cost (calculateCost p c plan) =
  let after := Cost.cost_after_free_tier (calculateCost p c plan) in
  if JS.gt (commit_of plan) 0 then
    JS.Math_min after (commit_of plan) +
    JS.Math_max 0 (after - commit_of plan) * multiplier_of plan
  else after.
Proof.
  unfold calculateCost, commit_of, multiplier_of.
  destruct (JS.gt _ 0 && JS.gt (p + c) 0); reflexivity.
Qed.

Lemma cost_after_without_free_tier (p c : Q) (plan : Plan.t) :
  free_tier_of plan <= 0 ->
  Cost.cost_after_free_tier (calculateCost p c plan) =
  Cost.raw_cost (calculateCost p c plan).
Proof.
  intros Hft. rewrite cost_after_free_tier_eq, raw_cost_eq.
  assert (E : JS.gt (free_tier_of plan) 0 = false) by (apply gt_false; exact Hft).
  rewrite E. reflexivity.
Qed.

Lemma final_cost_without_commit (p c : Q) (plan : Plan.t) :
  commit_of plan <= 0 ->
  Cost.final_cost (calculateCost p c plan) =
  Cost.cost_after_free_tier (calculateCost p c plan).
Proof.
  intros Hcommit. rewrite final_cost_eq. cbv zeta.
  assert (E : JS.gt (commit_of plan) 0 = false) by (apply gt_false; exact Hcommit).
  rewrite E. reflexivity.
Qed.

Lemma final_cost_with_commit (p c : Q) (plan : Plan.t) :
  0 < commit_of plan ->
  let after := Cost.cost_after_free_tier (calculateCost p c plan) in
  Cost.final_cost (calculateCost p c plan) ==
  Qmin after (commit_of plan) +
  Qmax 0 (after - commit_of plan) * multiplier_of plan.
Proof.
  intros Hcommit after. rewrite final_cost_eq. cbv zeta. fold after.
  apply gt_true in Hcommit. rewrite Hcommit.
  rewrite Math_min_Qmin, Math_max_Qmax. reflexivity.
Qed.

(** ** The cost resolver *)

(** C3: the raw cost is [(promptTokens/1000) * price_prompt_per_1k +
    (completionTokens/1000) * price_completion_per_1k] for every plan and
    all token counts; it does not change when the plan's free tier is
    changed, and in Scenario B (free tier of 1,000,000 tokens) it is still
    12.096. *)
Theorem C3_raw_cost_ignores_free_tier (p c : Q) (plan : Plan.t) :
  Cost.raw_cost (calculateCost p c plan) =
    p / 1000 * Plan.price_prompt_per_1k plan +
    c / 1000 * Plan.price_completion_per_1k plan
  /\ (forall free_tier : option Q,
        Cost.raw_cost (calculateCost p c (set_free_tier_tokens free_tier plan)) =
        Cost.raw_cost (calculateCost p c plan))
  /\ Cost.raw_cost (calculateCost 2016000 1344000 planB) == 12.096.
Proof.
  split; [apply raw_cost_eq|]. split.
  - intros free_tier. rewrite !raw_cost_eq. reflexivity.
  - rewrite raw_cost_eq. reflexivity.
Qed.

(** C7: with a free tier of 0 (or none), the cost after the free tier is
    the raw cost, whatever the token counts. *)
Theorem C7_no_free_tier_cost_is_raw (p c : Q) (plan : Plan.t) :
  free_tier_of plan == 0 ->
  Cost.cost_after_free_tier (calculateCost p c plan) =
  Cost.raw_cost (calculateCost p c plan).
Proof.
  intros Hft. apply cost_after_without_free_tier. lra.
Qed.

Lemma C7_witness :
  free_tier_of planA == 0 /\
  Cost.cost_after_free_tier (calculateCost 2016000 1344000 planA) =
  Cost.raw_cost (calculateCost 2016000 1344000 planA).
Proof.
  split; [reflexivity|].
  apply (C7_no_free_tier_cost_is_raw 2016000 1344000 planA). reflexivity.
Defined.

(** C10: for non-negative token counts and prices the pro-rata free tier
    never increases the cost, and a free tier that covers all the tokens
    brings the cost to 0. *)
Theorem C10_free_tier_never_increases_cost (p c : Q) (plan : Plan.t) :
  0 <= p -> 0 <= c ->
  0 <= Plan.price_prompt_per_1k plan ->
  0 <= Plan.price_completion_per_1k plan ->
  Cost.cost_after_free_tier (calculateCost p c plan) <=
    Cost.raw_cost (calculateCost p c plan)
  /\ (p + c <= free_tier_of plan ->
      Cost.cost_after_free_tier (calculateCost p c plan) == 0).
Proof.
  intros Hp Hc Hpp Hpc.
  rewrite cost_after_free_tier_eq, raw_cost_eq.
  set (pp := Plan.price_prompt_per_1k plan) in *.
  set (pc := Plan.price_completion_per_1k plan) in *.
  set (ft := free_tier_of plan).
  assert (Gp : 0 <= p * pp) by nra.
  assert (Gc : 0 <= c * pc) by nra.
  destruct (JS.gt ft 0) eqn:Eft; simpl.
  - apply gt_true in Eft.
    destruct (JS.gt (p + c) 0) eqn:Etot; simpl.
    + apply gt_true in Etot.
      assert (Hr : 0 <= JS.Math_max 0 (p + c - ft) / (p + c) <= 1).
      { apply ratio_bounds; [exact Etot|]. split.
        - apply Math_max_0_nonneg.
        - apply Math_max_0_le; lra. }
      split.
      * set (r := JS.Math_max 0 (p + c - ft) / (p + c)) in *.
        rewrite !Qdiv_1000.
        assert (0 <= p * pp * (1 - r)) by nra.
        assert (0 <= c * pc * (1 - r)) by nra.
        nra.
      * intros Hcover.
        assert (Hz : JS.Math_max 0 (p + c - ft) == 0)
          by (apply Math_max_0_nonpos; lra).
        rewrite Hz. field. lra.
    + apply gt_false in Etot. split; [lra|].
      intros _. assert (p == 0) by lra. assert (c == 0) by lra.
      rewrite !Qdiv_1000. nra.
  - apply gt_false in Eft. split; [lra|].
    intros Hcover. assert (p == 0) by lra. assert (c == 0) by lra.
    rewrite !Qdiv_1000. nra.
Qed.

Lemma C10_witness :
  (0 <= 2016000 /\ 0 <= 1344000 /\
   0 <= Plan.price_prompt_per_1k planFree /\
   0 <= Plan.price_completion_per_1k planFree /\
   2016000 + 1344000 <= free_tier_of planFree) /\
  Cost.cost_after_free_tier (calculateCost 2016000 1344000 planFree) <=
    Cost.raw_cost (calculateCost 2016000 1344000 planFree) /\
  Cost.cost_after_free_tier (calculateCost 2016000 1344000 planFree) == 0.
Proof.
  assert (H : 0 <= 2016000 /\ 0 <= 1344000 /\
              0 <= Plan.price_prompt_per_1k planFree /\
              0 <= Plan.price_completion_per_1k planFree /\
              2016000 + 1344000 <= free_tier_of planFree)
    by (repeat split; vm_compute; discriminate).
  split; [exact H|].
  destruct H as (Hp & Hc & Hpp & Hpc & Hcover).
  destruct (C10_free_tier_never_increases_cost 2016000 1344000 planFree
              Hp Hc Hpp Hpc) as [Hle Hzero].
  split; [exact Hle | exact (Hzero Hcover)].
Defined.

(** C6: an overage multiplier that is exactly 0 gives the same final cost
    as a multiplier of 1.0 and as a missing multiplier; with a positive
    commit the overage is then billed once, not zero times. *)
Theorem C6_zero_multiplier_is_one (p c m : Q) (plan : Plan.t) :
  Plan.overage_multiplier plan = Some m -> m == 0 ->
  Cost.final_cost (calculateCost p c plan) =
    Cost.final_cost (calculateCost p c (set_overage_multiplier (Some 1) plan))
  /\ Cost.final_cost (calculateCost p c plan) =
    Cost.final_cost (calculateCost p c (set_overage_multiplier None plan))
  /\ (0 < commit_of plan ->
      let after := Cost.cost_after_free_tier (calculateCost p c plan) in
      Cost.final_cost (calculateCost p c plan) ==
      Qmin after (commit_of plan) + Qmax 0 (after - commit_of plan) * 1).
Proof.
  intros Hm Hm0.
  assert (E : multiplier_of plan = 1).
  { unfold multiplier_of. rewrite Hm. apply or_else_eq0. exact Hm0. }
  assert (Hafter : forall v,
            Cost.cost_after_free_tier (calculateCost p c (set_overage_multiplier v plan)) =
            Cost.cost_after_free_tier (calculateCost p c plan)).
  { intros v. rewrite !cost_after_free_tier_eq. reflexivity. }
  repeat split.
  - rewrite !final_cost_eq. cbv zeta. rewrite Hafter, E. reflexivity.
  - rewrite !final_cost_eq. cbv zeta. rewrite Hafter, E. reflexivity.
  - intros Hcommit after. unfold after.
    rewrite (final_cost_with_commit p c plan Hcommit), E. reflexivity.
Qed.

Lemma C6_witness :
  (Plan.overage_multiplier planZeroMultiplier = Some 0 /\ 0 == 0) /\
  Cost.final_cost (calculateCost 2016000 1344000 planZeroMultiplier) =
  Cost.final_cost (calculateCost 2016000 1344000
                     (set_overage_multiplier (Some 1) planZeroMultiplier))
  /\ Cost.final_cost (calculateCost 2016000 1344000 planZeroMultiplier) == 12.096.
Proof.
  destruct (C6_zero_multiplier_is_one 2016000 1344000 0 planZeroMultiplier)
    as (H1 & _ & H3); [reflexivity | reflexivity |].
  split; [split; reflexivity|].
  split; [exact H1|].
  rewrite H3 by (vm_compute; reflexivity).
  vm_compute. reflexivity.
Defined.




(** ** The loop of [calculateAll] *)

Lemma for_of_loop_body (pm : gmap string Plan.t) (pa : gmap string string)
    (envs : list Env.t) (s : Frame.t) :
  for_of envs (loop_body pm pa) s =
  (tt, Frame.mk (Frame.resultsPerEnv s ++ (env_result pm pa <$> envs))
                (foldl (totals_step pm pa) (Frame.totals s) envs)).
Proof.
  revert s. induction envs as [|env envs IH]; intros s.
  - simpl. unfold ret. rewrite app_nil_r. destruct s; reflexivity.
  - simpl. unfold bind at 1.
    unfold loop_body at 1, env_result at 1, totals_step at 2.
    destruct (resolve_plan pm pa env) as [plan|].
    + unfold bind, push, add_to_totals. rewrite IH. simpl.
      rewrite <- app_assoc. reflexivity.
    + unfold push. rewrite IH. simpl.
      rewrite <- app_assoc. reflexivity.
Qed.

Lemma calculateAll_eq (state : AppState.t) (s : Frame.t) :
  let pm := plans_map (AppState.vendor_plans state) in
  let pa := AppState.plan_assignment state in
  let out := Output.mk (env_result pm pa <$> AppState.environments state)
                       (foldl (totals_step pm pa) zero_totals
                              (AppState.environments state)) in
  calculateAll state s =
  (out, Frame.mk (Output.perEnv out) (Output.totals out)).
Proof.
  unfold calculateAll, bind at 1, put. unfold bind at 1.
  rewrite for_of_loop_body. reflexivity.
Qed.

(** ** Plan lookup *)

Lemma foldl_insert_lookup_None (plans : list Plan.t) (m : gmap string Plan.t)
    (k : string) :
  foldl (fun m p => <[Plan.id p := p]> m) m plans !! k = None <->
  m !! k = None /\ k ∉ Plan.id <$> plans.
Proof.
  revert m. induction plans as [|p plans IH]; intros m; simpl.
  - split; [intros H; split; [exact H | apply not_elem_of_nil] | intros [H _]; exact H].
  - rewrite IH, lookup_insert_None, not_elem_of_cons. intuition congruence.
Qed.

Lemma foldl_insert_lookup_Some (plans : list Plan.t) (m : gmap string Plan.t)
    (k : string) (plan : Plan.t) :
  foldl (fun m p => <[Plan.id p := p]> m) m plans !! k = Some plan ->
  m !! k = Some plan \/ (plan ∈ plans /\ Plan.id plan = k).
Proof.
  revert m. induction plans as [|p plans IH]; intros m; simpl.
  - intros H. left. exact H.
  - intros H. apply IH in H. destruct H as [H | [Hin Hid]].
    + apply lookup_insert_Some in H. destruct H as [[Hk Hp] | [_ H]].
      * subst. right. split; [apply elem_of_cons; left; reflexivity | reflexivity].
      * left. exact H.
    + right. split; [apply elem_of_cons; right; exact Hin | exact Hid].
Qed.

Lemma plans_map_None (plans : list Plan.t) (k : string) :
  plans_map plans !! k = None <-> k ∉ Plan.id <$> plans.
Proof.
  unfold plans_map. rewrite foldl_insert_lookup_None, lookup_empty. tauto.
Qed.

Lemma plans_map_Some (plans : list Plan.t) (k : string) (plan : Plan.t) :
  plans_map plans !! k = Some plan -> plan ∈ plans /\ Plan.id plan = k.
Proof.
  unfold plans_map. intros H. apply foldl_insert_lookup_Some in H.
  destruct H as [H | H]; [|exact H].
  rewrite lookup_empty in H. discriminate.
Qed.

Lemma unassigned_resolve_plan (plans : list Plan.t) (pa : gmap string string)
    (env : Env.t) :
  unassigned plans pa env <-> resolve_plan (plans_map plans) pa env = None.
Proof.
  unfold unassigned, resolve_plan. split.
  - intros [H | [[H Hno] | (planId & H & Hno)]]; rewrite H;
      [reflexivity | apply plans_map_None; exact Hno | apply plans_map_None; exact Hno].
  - destruct (pa !! Env.id env) as [planId|] eqn:E; [|intros _; left; reflexivity].
    intros H. right. right. exists planId. split; [reflexivity|].
    apply plans_map_None. exact H.
Qed.

(** ** The aggregator *)

(** C9: [calculateAll] has no hidden state.  Its output does not depend
    on what its frame held before the call, and a second call with the
    same state, made after the first, returns the same per-environment
    results and the same totals. *)
Theorem C9_calculateAll_idempotent (state : AppState.t) (s s' : Frame.t) :
  fst (calculateAll state s) = fst (calculateAll state s')
  /\ (let (out1, s1) := calculateAll state s in
      let (out2, _) := calculateAll state s1 in
      Output.perEnv out1 = Output.perEnv out2 /\
      Output.totals out1 = Output.totals out2).
Proof.
  split.
  - rewrite !calculateAll_eq. reflexivity.
  - rewrite (calculateAll_eq state s). cbv zeta.
    rewrite calculateAll_eq. cbv zeta. split; reflexivity.
Qed.

(** C5: an environment whose assignment is absent, empty or dangling gets
    the error entry (its id, its name, the marker "No valid plan
    assigned." and the status "N/A", no cost field); the results of the
    other environments and all the totals are those of the same state
    without that environment. *)
Theorem C5_unassigned_environment (before after : list Env.t) (env : Env.t)
    (plans : list Plan.t) (pa : gmap string string) (s : Frame.t) :
  unassigned plans pa env ->
  let out := fst (calculateAll (AppState.mk (before ++ env :: after) plans pa) s) in
  let rest := fst (calculateAll (AppState.mk (before ++ after) plans pa) s) in
  Output.perEnv out !! length before =
    Some (ErrorResult (Env.id env) (Env.env_name env)
                      "No valid plan assigned." "N/A")
  /\ delete (length before) (Output.perEnv out) = Output.perEnv rest
  /\ Output.totals out = Output.totals rest.
Proof.
  intros Hun out rest. apply unassigned_resolve_plan in Hun.
  unfold out, rest. rewrite !calculateAll_eq. cbn [fst Output.perEnv Output.totals
    AppState.environments AppState.vendor_plans AppState.plan_assignment].
  set (pm := plans_map plans).
  assert (Eres : env_result pm pa env = no_plan_result env)
    by (unfold env_result; fold pm in Hun; rewrite Hun; reflexivity).
  assert (Elen : length before = length (env_result pm pa <$> before))
    by (rewrite length_fmap; reflexivity).
  rewrite !fmap_app, fmap_cons, Eres. repeat split.
  - rewrite Elen. apply list_lookup_middle. reflexivity.
  - rewrite Elen. apply delete_middle.
  - rewrite !foldl_app. simpl. unfold totals_step at 2.
    fold pm in Hun. rewrite Hun. reflexivity.
Qed.

Lemma C5_witness :
  unassigned [planA] assignmentE envStaging
  /\ Output.perEnv (fst (calculateAll stateE empty_frame)) !! 1%nat =
       Some (ErrorResult "env_2" "Staging" "No valid plan assigned." "N/A")
  /\ delete 1%nat (Output.perEnv (fst (calculateAll stateE empty_frame))) =
       Output.perEnv (fst (calculateAll stateE_rest empty_frame))
  /\ Output.totals (fst (calculateAll stateE empty_frame)) =
       Output.totals (fst (calculateAll stateE_rest empty_frame)).
Proof.
  assert (Hun : unassigned [planA] assignmentE envStaging).
  { right. left. split; [reflexivity|].
    apply not_elem_of_cons. split; [discriminate | apply not_elem_of_nil]. }
  split; [exact Hun|].
  exact (C5_unassigned_environment [envA] [] envStaging [planA] assignmentE
           empty_frame Hun).
Defined.

(** ** The environment evaluator *)

Lemma evaluate_tokens (env : Env.t) (plan : Plan.t) :
  let r := evaluate env plan in
  Res.monthly_tokens r =
    Env.requests_per_day env * effective_tokens_per_request env *
    Env.days_per_month env
  /\ Res.prompt_tokens r =
    Res.monthly_tokens r * (1 - JS.nullish (Env.completion_share env) 0.4)
  /\ Res.completion_tokens r =
    Res.monthly_tokens r * JS.nullish (Env.completion_share env) 0.4.
Proof. repeat split. Qed.

Lemma evaluate_costs (env : Env.t) (plan : Plan.t) :
  let r := evaluate env plan in
  let cost := calculateCost (Res.prompt_tokens r) (Res.completion_tokens r) plan in
  Res.raw_cost r = Cost.raw_cost cost
  /\ Res.cost_after_free_tier r = Cost.cost_after_free_tier cost
  /\ Res.final_cost r = Cost.final_cost cost.
Proof. repeat split. Qed.

Lemma evaluate_alert (env : Env.t) (plan : Plan.t) :
  let r := evaluate env plan in
  Res.utilization r =
    (if JS.gt (Env.monthly_budget env) 0
     then Res.final_cost r / Env.monthly_budget env else 0)
  /\ Res.status r = classify (Res.utilization r) (thresholds_of env)
  /\ Res.suggestion r =
    suggest (Res.status r) (Plan.currency plan) (Res.final_cost r)
            (Env.monthly_budget env) (thresholds_of env).
Proof. repeat split. Qed.

(** C1: on the inputs of Scenario A the evaluator finds 1120 effective
    tokens per request, 3,360,000 monthly tokens, 1,344,000 completion
    tokens, 2,016,000 prompt tokens, and a raw cost, a cost after the free
    tier and a final cost of 12.096 each. *)
Theorem C1_scenario_A (env : Env.t) (plan : Plan.t) :
  scenarioA_plan plan -> scenarioA_env env ->
  let r := evaluate env plan in
  effective_tokens_per_request env == 1120
  /\ Res.monthly_tokens r == 3360000
  /\ Res.completion_tokens r == 1344000
  /\ Res.prompt_tokens r == 2016000
  /\ Res.raw_cost r == 12.096
  /\ Res.cost_after_free_tier r == 12.096
  /\ Res.final_cost r == 12.096.
Proof.
  intros (Hpp & Hpc & Hft & Hcommit) (Hreq & Havg & Hctx & Hhit & Hsav & Hshare & Hdays) r.
  destruct (evaluate_tokens env plan) as (Emon & Eprompt & Ecompl).
  destruct (evaluate_costs env plan) as (Eraw & Eafter & Efinal).
  fold r in Emon, Eprompt, Ecompl, Eraw, Eafter, Efinal.
  assert (Heff : effective_tokens_per_request env == 1120).
  { unfold effective_tokens_per_request. cbv zeta.
    rewrite Havg, Hctx, Hhit, Hsav. reflexivity. }
  assert (Hmon : Res.monthly_tokens r == 3360000).
  { rewrite Emon, Hreq, Heff, Hdays. reflexivity. }
  assert (Hcompl : Res.completion_tokens r == 1344000).
  { rewrite Ecompl, Hmon, Hshare. reflexivity. }
  assert (Hprompt : Res.prompt_tokens r == 2016000).
  { rewrite Eprompt, Hmon, Hshare. reflexivity. }
  assert (Hraw : Res.raw_cost r == 12.096).
  { rewrite Eraw, raw_cost_eq, Hprompt, Hcompl, Hpp, Hpc. reflexivity. }
  assert (Hafter : Res.cost_after_free_tier r == 12.096).
  { rewrite Eafter, cost_after_without_free_tier, <- Eraw by lra. exact Hraw. }
  repeat split; try assumption.
  rewrite Efinal, final_cost_without_commit, <- Eafter by lra. exact Hafter.
Qed.

Lemma C1_witness :
  (scenarioA_plan planA /\ scenarioA_env envA)
  /\ effective_tokens_per_request envA == 1120
  /\ Res.monthly_tokens (evaluate envA planA) == 3360000
  /\ Res.final_cost (evaluate envA planA) == 12.096.
Proof.
  assert (Hplan : scenarioA_plan planA) by (repeat split; reflexivity).
  assert (Henv : scenarioA_env envA) by (repeat split; reflexivity).
  split; [split; assumption|].
  destruct (C1_scenario_A envA planA Hplan Henv) as (H1 & H2 & _ & _ & _ & _ & H7).
  repeat split; assumption.
Defined.

Lemma perEnv_lookup (state : AppState.t) (s : Frame.t) (i : nat) :
  Output.perEnv (fst (calculateAll state s)) !! i =
  env_result (plans_map (AppState.vendor_plans state))
             (AppState.plan_assignment state)
    <$> AppState.environments state !! i.
Proof.
  rewrite calculateAll_eq. cbn [fst Output.perEnv].
  apply list_lookup_fmap.
Qed.

Lemma classify_zero (thresholds : Thresholds.t) :
  0 < Thresholds.warn thresholds -> 0 < Thresholds.critical thresholds ->
  classify 0 thresholds = "GREEN"%string.
Proof.
  intros Hwarn Hcritical. unfold classify.
  assert (E1 : JS.ge 0 (Thresholds.critical thresholds) = false)
    by (apply ge_false; exact Hcritical).
  assert (E2 : JS.ge 0 (Thresholds.warn thresholds) = false)
    by (apply ge_false; exact Hwarn).
  rewrite E1, E2. reflexivity.
Qed.

(** C4, amended: an environment with a budget of 0, a resolvable plan and
    strictly positive warn and critical thresholds (the defaults 0.8 and
    1.0 among them) gets utilization 0, status "GREEN" and the empty
    suggestion, whatever its final cost. *)
Theorem C4_zero_budget_green (state : AppState.t) (s : Frame.t) (i : nat)
    (env : Env.t) (plan : Plan.t) :
  AppState.environments state !! i = Some env ->
  resolve_plan (plans_map (AppState.vendor_plans state))
               (AppState.plan_assignment state) env = Some plan ->
  Env.monthly_budget env == 0 ->
  0 < Thresholds.warn (thresholds_of env) ->
  0 < Thresholds.critical (thresholds_of env) ->
  exists r : Res.t,
    Output.perEnv (fst (calculateAll state s)) !! i = Some (Costed r)
    /\ Res.utilization r = 0
    /\ Res.status r = "GREEN"%string
    /\ Res.suggestion r = ""%string.
Proof.
  intros Henv Hplan Hbudget Hwarn Hcritical.
  exists (evaluate env plan).
  destruct (evaluate_alert env plan) as (Eutil & Estatus & Esuggest).
  assert (E : JS.gt (Env.monthly_budget env) 0 = false) by (apply gt_false; lra).
  rewrite E in Eutil.
  rewrite Eutil, classify_zero in Estatus by assumption.
  rewrite Estatus in Esuggest.
  repeat split; try assumption.
  rewrite perEnv_lookup, Henv. cbn [fmap option_fmap option_map].
  unfold env_result. rewrite Hplan. reflexivity.
Qed.

Lemma C4_witness :
  (AppState.environments stateD !! 0%nat = Some envD /\
   resolve_plan (plans_map (AppState.vendor_plans stateD))
                (AppState.plan_assignment stateD) envD = Some planA /\
   Env.monthly_budget envD == 0 /\
   0 < Thresholds.warn (thresholds_of envD) /\
   0 < Thresholds.critical (thresholds_of envD))
  /\ exists r : Res.t,
       Output.perEnv (fst (calculateAll stateD empty_frame)) !! 0%nat =
         Some (Costed r)
       /\ Res.utilization r = 0
       /\ Res.status r = "GREEN"%string
       /\ Res.suggestion r = ""%string.
Proof.
  assert (H1 : AppState.environments stateD !! 0%nat = Some envD) by reflexivity.
  assert (H2 : resolve_plan (plans_map (AppState.vendor_plans stateD))
                 (AppState.plan_assignment stateD) envD = Some planA)
    by (vm_compute; reflexivity).
  assert (H3 : Env.monthly_budget envD == 0) by reflexivity.
  assert (H4 : 0 < Thresholds.warn (thresholds_of envD)) by reflexivity.
  assert (H5 : 0 < Thresholds.critical (thresholds_of envD)) by reflexivity.
  split; [repeat split; assumption|].
  exact (C4_zero_budget_green stateD empty_frame 0 envD planA H1 H2 H3 H4 H5).
Defined.

(** C4 as stated fails: with a budget of 0 and alert thresholds of 0 the
    utilization 0 reaches the critical threshold, so the status is "RED"
    and a suggestion is produced. *)
Lemma C4_counterexample :
  Env.monthly_budget envZeroThresholds == 0
  /\ exists r : Res.t,
       Output.perEnv (fst (calculateAll stateZeroThresholds empty_frame)) =
         [Costed r]
       /\ Res.utilization r == 0
       /\ Res.status r = "RED"%string
       /\ Res.suggestion r =
          "Budget shortfall of EUR 12.10. To reach safety (sub-0%), reduce token usage by ~100% or raise budget."%string.
Proof.
  split; [reflexivity|].
  exists (evaluate envZeroThresholds planA).
  repeat split; vm_compute; reflexivity.
Qed.

(** ** Non-negative costs *)

Lemma or_else_nonneg (o : option Q) (d : Q) :
  opt_nonneg o -> 0 <= d -> 0 <= JS.or_else o d.
Proof.
  intros Ho Hd. destruct o as [x|]; simpl in *; [|exact Hd].
  destruct (Qeq_bool x 0); assumption.
Qed.

Lemma cost_after_free_tier_nonneg (p c : Q) (plan : Plan.t) :
  0 <= p -> 0 <= c ->
  0 <= Plan.price_prompt_per_1k plan ->
  0 <= Plan.price_completion_per_1k plan ->
  0 <= Cost.cost_after_free_tier (calculateCost p c plan).
Proof.
  intros Hp Hc Hpp Hpc. rewrite cost_after_free_tier_eq.
  set (pp := Plan.price_prompt_per_1k plan) in *.
  set (pc := Plan.price_completion_per_1k plan) in *.
  set (ft := free_tier_of plan).
  assert (Gp : 0 <= p * pp) by nra.
  assert (Gc : 0 <= c * pc) by nra.
  destruct (JS.gt ft 0 && JS.gt (p + c) 0) eqn:E.
  - apply andb_true_iff in E. destruct E as [_ Etot]. apply gt_true in Etot.
    assert (Hr : 0 <= JS.Math_max 0 (p + c - ft) / (p + c)).
    { apply Qle_shift_div_l; [exact Etot|].
      rewrite Qmult_0_l. apply Math_max_0_nonneg. }
    cbv zeta. set (r := JS.Math_max 0 (p + c - ft) / (p + c)) in *.
    rewrite !Qdiv_1000.
    assert (0 <= p * pp * r) by nra.
    assert (0 <= c * pc * r) by nra.
    nra.
  - rewrite !Qdiv_1000. nra.
Qed.

Lemma final_cost_nonneg (p c : Q) (plan : Plan.t) :
  0 <= Cost.cost_after_free_tier (calculateCost p c plan) ->
  opt_nonneg (Plan.overage_multiplier plan) ->
  0 <= Cost.final_cost (calculateCost p c plan).
Proof.
  intros Hafter Hmult. rewrite final_cost_eq. cbv zeta.
  set (after := Cost.cost_after_free_tier (calculateCost p c plan)) in *.
  destruct (JS.gt (commit_of plan) 0) eqn:E; [|exact Hafter].
  apply gt_true in E.
  assert (Hm : 0 <= multiplier_of plan)
    by (apply or_else_nonneg; [exact Hmult | lra]).
  assert (Hmin : 0 <= JS.Math_min after (commit_of plan))
    by (unfold JS.Math_min; destruct (Qle_bool after (commit_of plan)); lra).
  pose proof (Math_max_0_nonneg (after - commit_of plan)) as Hmax.
  nra.
Qed.

Lemma evaluate_tokens_nonneg (env : Env.t) (plan : Plan.t) :
  env_in_range env ->
  0 <= Res.prompt_tokens (evaluate env plan) /\
  0 <= Res.completion_tokens (evaluate env plan).
Proof.
  intros (Hreq & Havg & Hctx & Hhit & Hsav & Hshare & Hdays).
  destruct (evaluate_tokens env plan) as (Emon & Eprompt & Ecompl).
  set (sav := JS.nullish (Env.cache_savings_factor env) 0.8).
  assert (Gsav : 0 <= sav <= 1)
    by (unfold sav; destruct (Env.cache_savings_factor env); simpl in *; lra).
  set (share := JS.nullish (Env.completion_share env) 0.4) in *.
  assert (Gshare : 0 <= share <= 1)
    by (unfold share; destruct (Env.completion_share env); simpl in *; lra).
  assert (Gdisc : 0 <= 1 - Env.cache_hit_rate env * sav) by nra.
  assert (Geff : 0 <= effective_tokens_per_request env).
  { unfold effective_tokens_per_request. cbv zeta. fold sav. nra. }
  assert (Gmon : 0 <= Res.monthly_tokens (evaluate env plan)).
  { rewrite Emon.
    assert (0 <= Env.requests_per_day env * effective_tokens_per_request env) by nra.
    nra. }
  rewrite Eprompt, Ecompl. split; nra.
Qed.

(** C8: for a plan with non-negative prices, commit credit, free tier and
    overage multiplier, the resolver's final cost and cost after the free
    tier are non-negative on non-negative token counts; hence, when the
    plans and the environments of a state are within their ranges, every
    non-error result of the aggregator has a non-negative final cost. *)
Theorem C8_costs_nonnegative :
  (forall (plan : Plan.t) (p c : Q),
      plan_nonneg plan -> 0 <= p -> 0 <= c ->
      0 <= Cost.final_cost (calculateCost p c plan) /\
      0 <= Cost.cost_after_free_tier (calculateCost p c plan))
  /\ (forall (state : AppState.t) (s : Frame.t) (r : Res.t),
        Forall plan_nonneg (AppState.vendor_plans state) ->
        Forall env_in_range (AppState.environments state) ->
        Costed r ∈ Output.perEnv (fst (calculateAll state s)) ->
        0 <= Res.final_cost r).
Proof.
  assert (Hcost : forall (plan : Plan.t) (p c : Q),
             plan_nonneg plan -> 0 <= p -> 0 <= c ->
             0 <= Cost.final_cost (calculateCost p c plan) /\
             0 <= Cost.cost_after_free_tier (calculateCost p c plan)).
  { intros plan p c (Hpp & Hpc & _ & _ & Hmult) Hp Hc.
    pose proof (cost_after_free_tier_nonneg p c plan Hp Hc Hpp Hpc) as Hafter.
    split; [apply final_cost_nonneg|]; assumption. }
  split; [exact Hcost|].
  intros state s r Hplans Henvs Hin.
  rewrite calculateAll_eq in Hin. cbn [fst Output.perEnv] in Hin.
  apply list_elem_of_fmap in Hin. destruct Hin as (env & Hr & Henv).
  unfold env_result in Hr.
  destruct (resolve_plan _ _ env) as [plan|] eqn:Hres; [|discriminate].
  injection Hr as ->.
  assert (Hplan : plan_nonneg plan).
  { unfold resolve_plan in Hres.
    destruct (AppState.plan_assignment state !! Env.id env) as [planId|];
      [|discriminate].
    apply plans_map_Some in Hres. destruct Hres as [Hin _].
    rewrite Forall_forall in Hplans. apply Hplans. exact Hin. }
  assert (Hrange : env_in_range env)
    by (rewrite Forall_forall in Henvs; apply Henvs; exact Henv).
  destruct (evaluate_tokens_nonneg env plan Hrange) as [Hp Hc].
  destruct (evaluate_costs env plan) as (_ & _ & Efinal).
  rewrite Efinal. apply Hcost; assumption.
Qed.

Lemma C8_witness :
  (plan_nonneg planC /\ 0 <= 8493.6 /\ 0 <= 0
   /\ Forall plan_nonneg (AppState.vendor_plans stateA)
   /\ Forall env_in_range (AppState.environments stateA)
   /\ Costed (evaluate envA planA) ∈
        Output.perEnv (fst (calculateAll stateA empty_frame)))
  /\ 0 <= Cost.final_cost (calculateCost 8493.6 0 planC)
  /\ 0 <= Cost.cost_after_free_tier (calculateCost 8493.6 0 planC)
  /\ 0 <= Res.final_cost (evaluate envA planA).
Proof.
  assert (HplanC : plan_nonneg planC) by (repeat split; simpl; lra).
  assert (Hp : 0 <= 8493.6) by lra.
  assert (Hc : 0 <= 0) by lra.
  assert (Hplans : Forall plan_nonneg (AppState.vendor_plans stateA))
    by (repeat constructor; simpl; lra).
  assert (Henvs : Forall env_in_range (AppState.environments stateA))
    by (repeat constructor; simpl; lra).
  assert (Hin : Costed (evaluate envA planA) ∈
                Output.perEnv (fst (calculateAll stateA empty_frame))).
  { rewrite calculateAll_eq. apply elem_of_cons. left. reflexivity. }
  split; [repeat split; assumption|].
  destruct C8_costs_nonnegative as [Hcost Hall].
  destruct (Hcost planC 8493.6 0 HplanC Hp Hc) as [Hfinal Hafter].
  repeat split; [exact Hfinal | exact Hafter |].
  exact (Hall stateA empty_frame (evaluate envA planA) Hplans Henvs Hin).
Defined.

(** ** Sanity checks on the scenarios *)

Example toFixed_rounds_up : toFixed 2 12.096 = "12.10"%string.
Proof. reflexivity. Qed.

Example toFixed_tie : toFixed 2 0.005 = "0.01"%string.
Proof. reflexivity. Qed.

Example toFixed_negative : toFixed 2 (-0.001) = "-0.00"%string.
Proof. reflexivity. Qed.

Example toFixed_whole : toFixed 0 (0.8 * 100) = "80"%string.
Proof. reflexivity. Qed.

(** Scenario B: the free tier of 1,000,000 tokens leaves 2,360,000 of the
    3,360,000 tokens billable. *)
Example scenario_B_cost_after_free_tier :
  Cost.cost_after_free_tier (calculateCost 2016000 1344000 planB) == 8.496.
Proof. vm_compute. reflexivity. Qed.

(** Scenario A within its budget of 20: utilization 0.6048, status GREEN. *)
Example scenario_A_status :
  Res.utilization (evaluate envA planA) == 0.6048 /\
  Res.status (evaluate envA planA) = "GREEN"%string /\
  Res.suggestion (evaluate envA planA) = ""%string.
Proof. repeat split; vm_compute; reflexivity. Qed.

(** Scenario A on doubles: the same seven numbers, 12.096 being the
    double nearest to it. *)
Example scenario_A_binary64 :
  Binary64.tokens 100 1000 200 0.5 0.8 0.4 30 =
    (1120, 3360000, 2016000, 1344000)%float
  /\ Binary64.calculateCost 2016000 1344000 0.002 0.006
       (Some 0%float) (Some 0%float) (Some 1%float) =
    (12.096, 12.096, 12.096)%float.
Proof. split; vm_compute; reflexivity. Qed.

(** The default state: the first environment is Scenario A; the second
    overruns its budget of 50 and gets both sentences of the suggestion. *)
Example default_state_results :
  exists r1 r2 : Res.t,
    Output.perEnv (fst (calculateAll DEFAULT_STATE empty_frame)) =
      [Costed r1; Costed r2]
    /\ Res.final_cost r1 == 12.096 /\ Res.status r1 = "GREEN"%string
    /\ Res.final_cost r2 == 105.996 /\ Res.status r2 = "RED"%string
    /\ Res.suggestion r2 =
       "Budget shortfall of USD 56.00. To reach safety (sub-80%), reduce token usage by ~62% or raise budget."%string
    /\ Totals.final_cost (Output.totals (fst (calculateAll DEFAULT_STATE empty_frame)))
       == 118.092.
Proof.
  exists (evaluate envA planA), (evaluate envStaging planOpus).
  repeat split; vm_compute; reflexivity.
Qed.

(** * Further properties of the calculation engine *)

(** ** Tokens *)

Lemma sum_costed_cons (f : Res.t -> Q) (r : EnvResult) (l : list EnvResult) :
  sum_costed f (r :: l) =
  match r with
  | Costed x => f x + sum_costed f l
  | ErrorResult _ _ _ _ => sum_costed f l
  end.
Proof. destruct r; reflexivity. Qed.

Lemma foldl_totals_step (pm : gmap string Plan.t) (pa : gmap string string)
    (envs : list Env.t) (t : Totals.t) :
  let T := foldl (totals_step pm pa) t envs in
  let perEnv := env_result pm pa <$> envs in
  Totals.total_tokens T == Totals.total_tokens t + sum_costed Res.monthly_tokens perEnv
  /\ Totals.prompt_tokens T == Totals.prompt_tokens t + sum_costed Res.prompt_tokens perEnv
  /\ Totals.completion_tokens T ==
       Totals.completion_tokens t + sum_costed Res.completion_tokens perEnv
  /\ Totals.raw_cost T == Totals.raw_cost t + sum_costed Res.raw_cost perEnv
  /\ Totals.final_cost T == Totals.final_cost t + sum_costed Res.final_cost perEnv
  /\ Totals.budget T == Totals.budget t + sum_costed Res.budget perEnv.
Proof.
  revert t. induction envs as [|env envs IH]; intros t; cbv zeta.
  - cbn [foldl fmap list_fmap sum_costed foldr]. repeat split; ring.
  - cbn [foldl]. rewrite fmap_cons.
    destruct (IH (totals_step pm pa t env)) as (H1 & H2 & H3 & H4 & H5 & H6).
    rewrite H1, H2, H3, H4, H5, H6. clear H1 H2 H3 H4 H5 H6 IH.
    rewrite !sum_costed_cons.
    remember (env_result pm pa <$> envs) as rest.
    unfold totals_step, env_result.
    destruct (resolve_plan pm pa env) as [plan|];
      cbn [Totals.total_tokens Totals.prompt_tokens Totals.completion_tokens
           Totals.raw_cost Totals.final_cost Totals.budget no_plan_result
           evaluate Res.budget];
      repeat split; ring.
Qed.

(** X1: the totals returned by [calculateAll] are the sums, over the
    entries of [perEnv] that carry costs, of the corresponding fields. *)
Theorem totals_are_sums (state : AppState.t) (s : Frame.t) :
  let out := fst (calculateAll state s) in
  let perEnv := Output.perEnv out in
  let totals := Output.totals out in
  Totals.total_tokens totals == sum_costed Res.monthly_tokens perEnv
  /\ Totals.prompt_tokens totals == sum_costed Res.prompt_tokens perEnv
  /\ Totals.completion_tokens totals == sum_costed Res.completion_tokens perEnv
  /\ Totals.raw_cost totals == sum_costed Res.raw_cost perEnv
  /\ Totals.final_cost totals == sum_costed Res.final_cost perEnv
  /\ Totals.budget totals == sum_costed Res.budget perEnv.
Proof.
  cbv zeta. rewrite calculateAll_eq. cbn [fst Output.perEnv Output.totals].
  destruct (foldl_totals_step (plans_map (AppState.vendor_plans state))
              (AppState.plan_assignment state) (AppState.environments state)
              zero_totals) as (H1 & H2 & H3 & H4 & H5 & H6).
  rewrite H1, H2, H3, H4, H5, H6. simpl. repeat split; ring.
Qed.

Lemma env_result_id (pm : gmap string Plan.t) (pa : gmap string string)
    (env : Env.t) :
  result_env_id (env_result pm pa env) = Env.id env.
Proof. unfold env_result. destruct (resolve_plan pm pa env); reflexivity. Qed.

Lemma env_result_name (pm : gmap string Plan.t) (pa : gmap string string)
    (env : Env.t) :
  result_env_name (env_result pm pa env) = Env.env_name env.
Proof. unfold env_result. destruct (resolve_plan pm pa env); reflexivity. Qed.

(** X3: [perEnv] has one entry per environment, in the order of the
    environments, each carrying the id and the name of its environment,
    whether it is an error entry or a costed one. *)
Theorem perEnv_follows_environments (state : AppState.t) (s : Frame.t) :
  let perEnv := Output.perEnv (fst (calculateAll state s)) in
  length perEnv = length (AppState.environments state)
  /\ result_env_id <$> perEnv = Env.id <$> AppState.environments state
  /\ result_env_name <$> perEnv = Env.env_name <$> AppState.environments state.
Proof.
  cbv zeta. rewrite calculateAll_eq. cbn [fst Output.perEnv].
  set (pm := plans_map (AppState.vendor_plans state)).
  set (pa := AppState.plan_assignment state).
  split; [apply length_fmap|].
  induction (AppState.environments state) as [|env envs [IH1 IH2]];
    [split; reflexivity|].
  rewrite !fmap_cons, IH1, IH2, env_result_id, env_result_name.
  split; reflexivity.
Qed.

(** ** Cache discount *)

(** X4: for an environment within its ranges the effective tokens per
    request lie between the average tokens and the average plus the
    context tokens; without cache hits the whole context is billed. *)
Theorem effective_tokens_bounds (env : Env.t) :
  env_in_range env ->
  Env.avg_tokens_per_request env <= effective_tokens_per_request env
  /\ effective_tokens_per_request env <=
     Env.avg_tokens_per_request env + Env.context_tokens env
  /\ (Env.cache_hit_rate env == 0 ->
      effective_tokens_per_request env ==
      Env.avg_tokens_per_request env + Env.context_tokens env).
Proof.
  intros (_ & _ & Hctx & Hhit & Hsav & _ & _).
  unfold effective_tokens_per_request. cbv zeta.
  set (sav := JS.nullish (Env.cache_savings_factor env) 0.8).
  assert (Gsav : 0 <= sav <= 1)
    by (unfold sav; destruct (Env.cache_savings_factor env); simpl in *; lra).
  assert (G1 : 0 <= Env.cache_hit_rate env * sav) by nra.
  assert (G2 : Env.cache_hit_rate env * sav <= 1) by nra.
  repeat split.
  - nra.
  - nra.
  - intros Hzero. rewrite Hzero. ring.
Qed.

Lemma effective_tokens_bounds_witness :
  env_in_range envStaging
  /\ 2000 <= effective_tokens_per_request envStaging
  /\ effective_tokens_per_request envStaging <= 2000 + 1000.
Proof.
  assert (H : env_in_range envStaging) by (repeat split; simpl; lra).
  split; [exact H|].
  destruct (effective_tokens_bounds envStaging H) as (H1 & H2 & _).
  split; [exact H1 | exact H2].
Defined.

(** ** Edge cases and closed forms of the cost resolver *)

Lemma calculateCost_zero_tokens (p c : Q) (plan : Plan.t) :
  p == 0 -> c == 0 ->
  Cost.raw_cost (calculateCost p c plan) == 0
  /\ Cost.cost_after_free_tier (calculateCost p c plan) == 0
  /\ Cost.final_cost (calculateCost p c plan) == 0.
Proof.
  intros Hp Hc.
  assert (Hraw : Cost.raw_cost (calculateCost p c plan) == 0)
    by (rewrite raw_cost_eq, Hp, Hc; reflexivity).
  assert (Hafter : Cost.cost_after_free_tier (calculateCost p c plan) == 0).
  { rewrite cost_after_free_tier_eq.
    assert (E : JS.gt (p + c) 0 = false) by (apply gt_false; lra).
    rewrite E, andb_false_r, Hp, Hc. reflexivity. }
  repeat split; try assumption.
  rewrite final_cost_eq. cbv zeta.
  set (after := Cost.cost_after_free_tier (calculateCost p c plan)) in *.
  destruct (JS.gt (commit_of plan) 0) eqn:E; [|exact Hafter].
  apply gt_true in E.
  assert (Hmin : JS.Math_min after (commit_of plan) == 0).
  { unfold JS.Math_min. destruct (Qle_bool after (commit_of plan)) eqn:E'.
    - exact Hafter.
    - assert (commit_of plan < after)
        by (apply gt_true; unfold JS.gt; rewrite E'; reflexivity).
      lra. }
  assert (Hmax : JS.Math_max 0 (after - commit_of plan) == 0)
    by (apply Math_max_0_nonpos; lra).
  rewrite Hmin, Hmax. ring.
Qed.

(** X5: without tokens nothing is charged, whatever the plan (free tier,
    commit credit and overage included); in particular an environment
    with 0 requests per day or 0 billable days has zero tokens, zero
    costs and zero utilization. *)
Theorem zero_usage_costs_nothing (env : Env.t) (plan : Plan.t) :
  Env.requests_per_day env == 0 \/ Env.days_per_month env == 0 ->
  let r := evaluate env plan in
  Res.monthly_tokens r == 0
  /\ Res.raw_cost r == 0
  /\ Res.cost_after_free_tier r == 0
  /\ Res.final_cost r == 0
  /\ Res.utilization r == 0.
Proof.
  intros Hzero r.
  destruct (evaluate_tokens env plan) as (Emon & Eprompt & Ecompl).
  destruct (evaluate_costs env plan) as (Eraw & Eafter & Efinal).
  destruct (evaluate_alert env plan) as (Eutil & _ & _).
  fold r in Emon, Eprompt, Ecompl, Eraw, Eafter, Efinal, Eutil.
  assert (Hmon : Res.monthly_tokens r == 0)
    by (rewrite Emon; destruct Hzero as [H | H]; rewrite H; ring).
  assert (Hp : Res.prompt_tokens r == 0) by (rewrite Eprompt, Hmon; ring).
  assert (Hc : Res.completion_tokens r == 0) by (rewrite Ecompl, Hmon; ring).
  destruct (calculateCost_zero_tokens _ _ plan Hp Hc) as (Hraw & Hafter & Hfinal).
  rewrite <- Eraw in Hraw. rewrite <- Eafter in Hafter. rewrite <- Efinal in Hfinal.
  repeat split; try assumption.
  rewrite Eutil. destruct (JS.gt (Env.monthly_budget env) 0) eqn:E; [|reflexivity].
  apply gt_true in E. rewrite Hfinal. field. lra.
Qed.

Lemma zero_usage_costs_nothing_witness :
  (Env.requests_per_day envIdle == 0 \/ Env.days_per_month envIdle == 0)
  /\ Res.final_cost (evaluate envIdle planC) == 0
  /\ Res.utilization (evaluate envIdle planC) == 0.
Proof.
  assert (H : Env.requests_per_day envIdle == 0 \/ Env.days_per_month envIdle == 0)
    by (left; reflexivity).
  split; [exact H|].
  destruct (zero_usage_costs_nothing envIdle planC H) as (_ & _ & _ & H4 & H5).
  split; [exact H4 | exact H5].
Defined.



(** The same usage on doubles: 2000 prompt tokens at 1 per 1k under a
    commit of 5 with a multiplier of 1.5 cost 2. *)
Example commit_not_reached_binary64 :
  Binary64.calculateCost 2000 0 1 1 (Some 0%float) (Some 5%float) (Some 1.5%float)
  = (2, 2, 2)%float.
Proof. vm_compute. reflexivity. Qed.

(** ** Status and suggestion *)

Lemma ge_quotient (f b c : Q) :
  0 < b -> (JS.ge (f / b) c = true <-> c * b <= f).
Proof.
  intros Hb. rewrite ge_true.
  assert (Hq : f / b * b == f) by (field; lra).
  split; intros H.
  - set (q := f / b) in *. nra.
  - apply Qle_shift_div_l; assumption.
Qed.

Lemma gt_quotient_pos (x f : Q) :
  0 < f -> (JS.gt (x / f) 0 = true <-> 0 < x).
Proof.
  intros Hf. rewrite gt_true.
  assert (Hq : x / f * f == x) by (field; lra).
  split; intros H.
  - set (q := x / f) in *. nra.
  - apply Qlt_shift_div_l; lra.
Qed.

Lemma suggest_empty_iff (status currency : string) (final budget : Q)
    (th : Thresholds.t) :
  status = "RED"%string \/ status = "AMBER"%string ->
  (suggest status currency final budget th = ""%string <->
   final <= budget /\ (final <= 0 \/ final <= budget * Thresholds.warn th)).
Proof.
  intros Hs. unfold suggest.
  assert (Ec : (String.eqb status "RED" || String.eqb status "AMBER")%bool = true)
    by (destruct Hs as [-> | ->]; reflexivity).
  rewrite Ec. cbv zeta. set (target := budget * Thresholds.warn th).
  destruct (JS.gt (final - budget) 0) eqn:E1.
  - apply gt_true in E1. split.
    + intros H. exfalso.
      destruct (JS.gt (if JS.gt final 0 then (final - target) / final else 0) 0);
        cbn [String.append] in H; discriminate.
    + intros [Hb _]. lra.
  - apply gt_false in E1. destruct (JS.gt final 0) eqn:E2.
    + apply gt_true in E2.
      pose proof (gt_quotient_pos (final - target) final E2) as Hq.
      destruct (JS.gt ((final - target) / final) 0) eqn:E3.
      * assert (0 < final - target) by (apply Hq; reflexivity).
        split; [cbn [String.append]; discriminate|].
        intros [_ [H0 | Ht]]; lra.
      * assert (Hnot : ~ 0 < final - target)
          by (intros Hpos; apply Hq in Hpos; discriminate).
        split; [|reflexivity]. intros _. split; [lra|].
        right. apply Qnot_lt_le in Hnot. lra.
    + apply gt_false in E2. change (JS.gt 0 0) with false.
      split; [|reflexivity]. intros _. split; [lra | left; exact E2].
Qed.

(** X10: the status of a costed entry is one of "RED", "AMBER" and
    "GREEN", and its suggestion is empty exactly when the status is GREEN
    or the final cost is within the budget and not above
    [budget * warn] (or not positive): a RED or AMBER entry can come
    without advice, as when the utilization equals the warn threshold. *)
Theorem suggestion_empty_iff (env : Env.t) (plan : Plan.t) :
  let r := evaluate env plan in
  let budget := Env.monthly_budget env in
  let warn := Thresholds.warn (thresholds_of env) in
  (Res.status r = "RED"%string \/ Res.status r = "AMBER"%string
   \/ Res.status r = "GREEN"%string)
  /\ (Res.suggestion r = ""%string <->
      Res.status r = "GREEN"%string
      \/ (Res.final_cost r <= budget
          /\ (Res.final_cost r <= 0 \/ Res.final_cost r <= budget * warn))).
Proof.
  intros r budget warn.
  destruct (evaluate_alert env plan) as (_ & Estatus & Esuggest).
  fold r budget in Estatus, Esuggest.
  assert (Hstatus : Res.status r = "RED"%string \/ Res.status r = "AMBER"%string
                    \/ Res.status r = "GREEN"%string).
  { rewrite Estatus. unfold classify.
    destruct (JS.ge _ _); [left; reflexivity|].
    destruct (JS.ge _ _); [right; left; reflexivity | right; right; reflexivity]. }
  split; [exact Hstatus|].
  rewrite Esuggest.
  destruct Hstatus as [Hs | [Hs | Hs]].
  - rewrite (suggest_empty_iff _ _ _ _ _ (or_introl Hs)). fold warn.
    rewrite Hs. split; [intros H; right; exact H | intros [Hg | H]; [discriminate | exact H]].
  - rewrite (suggest_empty_iff _ _ _ _ _ (or_intror Hs)). fold warn.
    rewrite Hs. split; [intros H; right; exact H | intros [Hg | H]; [discriminate | exact H]].
  - rewrite Hs. split; [intros _; left; reflexivity | intros _; reflexivity].
Qed.

Lemma suggestion_empty_iff_witness :
  (Res.status (evaluate envStaging planOpus) = "RED"%string
   \/ Res.status (evaluate envStaging planOpus) = "AMBER"%string
   \/ Res.status (evaluate envStaging planOpus) = "GREEN"%string)
  /\ (Res.status (evaluate envA planA) = "GREEN"%string
      /\ Res.suggestion (evaluate envA planA) = ""%string).
Proof.
  destruct (suggestion_empty_iff envStaging planOpus) as [H1 _].
  split; [exact H1|].
  assert (Hg : Res.status (evaluate envA planA) = "GREEN"%string) by reflexivity.
  split; [exact Hg|].
  destruct (suggestion_empty_iff envA planA) as [_ H2].
  apply H2. left. exact Hg.
Defined.

(** X11: over budget, with a warn threshold of at most 1, the entry is
    not GREEN and its suggestion is made of both sentences: the shortfall
    sentence, which names the currency of the plan and an amount, followed
    by the reduction sentence, which names the warn threshold and a
    percentage.  The digits of the three numbers are those of [toFixed]
    and are left open here. *)
Theorem over_budget_suggestion (env : Env.t) (plan : Plan.t) :
  let r := evaluate env plan in
  let budget := Env.monthly_budget env in
  let warn := Thresholds.warn (thresholds_of env) in
  0 < budget -> budget < Res.final_cost r -> warn <= 1 ->
  Res.status r <> "GREEN"%string
  /\ exists amount target percent : string,
       Res.suggestion r =
       (("Budget shortfall of " ++ Plan.currency plan ++ " " ++ amount ++ ". ")
        ++ "To reach safety (sub-" ++ target
        ++ "%), reduce token usage by ~" ++ percent
        ++ "% or raise budget.")%string.
Proof.
  intros r budget warn Hbudget Hover Hwarn.
  destruct (evaluate_alert env plan) as (Eutil & Estatus & Esuggest).
  fold r in Eutil, Estatus, Esuggest.
  assert (E : JS.gt (Env.monthly_budget env) 0 = true) by (apply gt_true; exact Hbudget).
  rewrite E in Eutil.
  assert (Hw : JS.ge (Res.utilization r) warn = true).
  { rewrite Eutil. apply (ge_quotient (Res.final_cost r) budget warn Hbudget). nra. }
  assert (Hstatus : Res.status r = "RED"%string \/ Res.status r = "AMBER"%string).
  { rewrite Estatus. unfold classify.
    destruct (JS.ge _ (Thresholds.critical _)); [left; reflexivity|].
    fold warn. rewrite Hw. right. reflexivity. }
  split; [destruct Hstatus as [H | H]; rewrite H; discriminate|].
  rewrite Esuggest. unfold suggest.
  assert (Eb : (String.eqb (Res.status r) "RED" || String.eqb (Res.status r) "AMBER")%bool
               = true)
    by (destruct Hstatus as [H | H]; rewrite H; reflexivity).
  rewrite Eb. cbv zeta. fold budget warn.
  assert (E1 : JS.gt (Res.final_cost r - budget) 0 = true) by (apply gt_true; lra).
  assert (E2 : JS.gt (Res.final_cost r) 0 = true) by (apply gt_true; lra).
  rewrite E1, E2.
  assert (E3 : JS.gt ((Res.final_cost r - budget * warn) / Res.final_cost r) 0 = true).
  { apply gt_true. apply Qlt_shift_div_l; [lra|]. nra. }
  rewrite E3. eexists _, _, _. reflexivity.
Qed.

Lemma over_budget_suggestion_witness :
  (0 < Env.monthly_budget envStaging
   /\ Env.monthly_budget envStaging < Res.final_cost (evaluate envStaging planOpus)
   /\ Thresholds.warn (thresholds_of envStaging) <= 1)
  /\ Res.status (evaluate envStaging planOpus) <> "GREEN"%string
  /\ exists amount target percent : string,
       Res.suggestion (evaluate envStaging planOpus) =
       (("Budget shortfall of " ++ "USD" ++ " " ++ amount ++ ". ")
        ++ "To reach safety (sub-" ++ target
        ++ "%), reduce token usage by ~" ++ percent
        ++ "% or raise budget.")%string.
Proof.
  assert (H1 : 0 < Env.monthly_budget envStaging) by reflexivity.
  assert (H2 : Env.monthly_budget envStaging <
               Res.final_cost (evaluate envStaging planOpus)) by reflexivity.
  assert (H3 : Thresholds.warn (thresholds_of envStaging) <= 1)
    by (vm_compute; discriminate).
  split; [repeat split; assumption|].
  destruct (over_budget_suggestion envStaging planOpus H1 H2 H3) as [Hs Hsug].
  split; [exact Hs|]. exact Hsug.
Defined.

(** * The plan map *)

Lemma foldl_insert_lookup_agree (plans : list Plan.t) (m1 m2 : gmap string Plan.t)
    (k : string) :
  m1 !! k = m2 !! k ->
  foldl (fun m p => <[Plan.id p := p]> m) m1 plans !! k =
  foldl (fun m p => <[Plan.id p := p]> m) m2 plans !! k.
Proof.
  revert m1 m2. induction plans as [|p plans IH]; intros m1 m2 Hm; simpl.
  - exact Hm.
  - apply IH. destruct (decide (Plan.id p = k)) as [-> | Hne].
    + rewrite !lookup_insert_eq. reflexivity.
    + rewrite !lookup_insert_ne by exact Hne. exact Hm.
Qed.

Lemma foldl_insert_lookup_notin (plans : list Plan.t) (m : gmap string Plan.t)
    (k : string) :
  k ∉ Plan.id <$> plans ->
  foldl (fun m p => <[Plan.id p := p]> m) m plans !! k = m !! k.
Proof.
  revert m. induction plans as [|p plans IH]; intros m Hk; simpl.
  - reflexivity.
  - rewrite fmap_cons in Hk. apply not_elem_of_cons in Hk. destruct Hk as [Hne Hk].
    rewrite IH by exact Hk. apply lookup_insert_ne. congruence.
Qed.

Lemma plans_map_middle (before after : list Plan.t) (p : Plan.t) :
  Plan.id p ∉ Plan.id <$> after ->
  plans_map (before ++ p :: after) !! Plan.id p = Some p.
Proof.
  intros Hk. unfold plans_map. rewrite foldl_app. cbn [foldl].
  rewrite foldl_insert_lookup_notin by exact Hk. apply lookup_insert_eq.
Qed.

Lemma plans_map_delete (plans : list Plan.t) (index : nat) (p : Plan.t) (k : string) :
  plans !! index = Some p -> Plan.id p <> k ->
  plans_map (delete index plans) !! k = plans_map plans !! k.
Proof.
  intros Hp Hne. apply list_elem_of_split_length in Hp.
  destruct Hp as (l1 & l2 & -> & ->). rewrite delete_middle.
  unfold plans_map. rewrite !foldl_app. cbn [foldl].
  apply foldl_insert_lookup_agree. symmetry. apply lookup_insert_ne. exact Hne.
Qed.

Lemma plans_map_snoc (plans : list Plan.t) (p : Plan.t) (k : string) :
  Plan.id p <> k ->
  plans_map (plans ++ [p]) !! k = plans_map plans !! k.
Proof.
  intros Hne. unfold plans_map. rewrite foldl_app. cbn [foldl].
  apply lookup_insert_ne. exact Hne.
Qed.

(** X12: [plansMap] finds a plan under its id when no later plan of the
    list has the same id; of several plans with one id the last wins. *)
Theorem plans_map_last_wins (before after : list Plan.t) (p : Plan.t) :
  Plan.id p ∉ Plan.id <$> after ->
  plans_map (before ++ p :: after) !! Plan.id p = Some p.
Proof.
  intros Hlater. unfold plans_map. rewrite foldl_app. cbn [foldl].
  rewrite foldl_insert_lookup_notin by exact Hlater.
  apply lookup_insert_eq.
Qed.

Lemma plans_map_last_wins_witness :
  (Plan.id planB ∉ (Plan.id <$> [planOpus]))
  /\ plans_map ([planA] ++ planB :: [planOpus]) !! "plan_1"%string = Some planB.
Proof.
  assert (H : Plan.id planB ∉ (Plan.id <$> [planOpus])).
  { apply not_elem_of_cons. split; [discriminate | apply not_elem_of_nil]. }
  split; [exact H|].
  exact (plans_map_last_wins [planA] [planOpus] planB H).
Defined.

(** X13: when the plan ids are pairwise distinct, [plansMap] holds
    exactly the plans of the list, each under its own id. *)
Theorem plans_map_unique_ids (plans : list Plan.t) (k : string) (plan : Plan.t) :
  NoDup (Plan.id <$> plans) ->
  (plans_map plans !! k = Some plan <-> plan ∈ plans /\ Plan.id plan = k).
Proof.
  intros Hnd. split; [apply plans_map_Some|].
  intros [Hin <-]. apply list_elem_of_split in Hin.
  destruct Hin as (l1 & l2 & ->). apply plans_map_middle.
  rewrite fmap_app, fmap_cons in Hnd.
  apply NoDup_app in Hnd. destruct Hnd as (_ & _ & Hnd).
  apply NoDup_cons in Hnd. destruct Hnd as [Hnotin _]. exact Hnotin.
Qed.

Lemma plans_map_unique_ids_witness :
  NoDup (Plan.id <$> [planA; planOpus])
  /\ plans_map [planA; planOpus] !! "plan_2"%string = Some planOpus.
Proof.
  assert (H : NoDup (Plan.id <$> [planA; planOpus])).
  { apply NoDup_cons. split.
    - apply not_elem_of_cons. split; [discriminate | apply not_elem_of_nil].
    - apply NoDup_cons. split; [apply not_elem_of_nil | apply NoDup_nil_2]. }
  split; [exact H|].
  apply (plans_map_unique_ids [planA; planOpus] "plan_2" planOpus H).
  split; [|reflexivity].
  apply elem_of_cons. right. apply elem_of_cons. left. reflexivity.
Defined.

(** * The controller *)

Lemma State_update_all (envs : list Env.t) (plans : list Plan.t)
    (pa : gmap string string) (state : AppState.t) :
  State_update (Partial.mk (Some envs) (Some plans) (Some pa)) state =
  AppState.mk envs plans pa.
Proof. reflexivity. Qed.

Lemma env_result_ext (pm pm' : gmap string Plan.t) (pa pa' : gmap string string)
    (env : Env.t) :
  resolve_plan pm' pa' env = resolve_plan pm pa env ->
  env_result pm' pa' env = env_result pm pa env
  /\ (forall t, totals_step pm' pa' t env = totals_step pm pa t env).
Proof.
  intros H. unfold env_result, totals_step. rewrite H. split; reflexivity.
Qed.

Lemma foldl_ext_in {A B : Type} (f g : A -> B -> A) (l : list B) (a : A) :
  (forall x, x ∈ l -> forall a, f a x = g a x) -> foldl f a l = foldl g a l.
Proof.
  revert a. induction l as [|x l IH]; intros a H; simpl; [reflexivity|].
  rewrite H by (apply elem_of_cons; left; reflexivity).
  apply IH. intros y Hy. apply H. apply elem_of_cons. right. exact Hy.
Qed.

Lemma calculateAll_ext (state state' : AppState.t) (s : Frame.t) :
  AppState.environments state' = AppState.environments state ->
  (forall env, env ∈ AppState.environments state ->
     resolve_plan (plans_map (AppState.vendor_plans state'))
                  (AppState.plan_assignment state') env =
     resolve_plan (plans_map (AppState.vendor_plans state))
                  (AppState.plan_assignment state) env) ->
  fst (calculateAll state' s) = fst (calculateAll state s).
Proof.
  intros Henvs Hres. rewrite !calculateAll_eq. cbn [fst]. rewrite Henvs. f_equal.
  - apply list_fmap_ext. intros i env Hi. apply env_result_ext. apply Hres.
    apply list_elem_of_lookup_2 in Hi. exact Hi.
  - apply foldl_ext_in. intros env Hin t. apply env_result_ext. apply Hres. exact Hin.
Qed.

(** X14: deleting a plan leaves the environments in place, turns the
    entry of every environment that was assigned the deleted plan's id
    into the error entry (no remaining plan having the empty id), and
    keeps the entry of every other environment as it was. *)
Theorem delete_plan_unassigns (index : nat) (state state' : AppState.t) (s : Frame.t) :
  delete_plan index state = Some state' ->
  ""%string ∉ (Plan.id <$> AppState.vendor_plans state') ->
  exists plan : Plan.t,
    AppState.vendor_plans state !! index = Some plan
    /\ AppState.vendor_plans state' = delete index (AppState.vendor_plans state)
    /\ AppState.environments state' = AppState.environments state
    /\ forall (i : nat) (env : Env.t),
         AppState.environments state !! i = Some env ->
         (AppState.plan_assignment state !! Env.id env = Some (Plan.id plan) ->
          Output.perEnv (fst (calculateAll state' s)) !! i = Some (no_plan_result env))
         /\ (AppState.plan_assignment state !! Env.id env <> Some (Plan.id plan) ->
             Output.perEnv (fst (calculateAll state' s)) !! i =
             Output.perEnv (fst (calculateAll state s)) !! i).
Proof.
  unfold delete_plan. intros Hdel Hempty.
  destruct (AppState.vendor_plans state !! index) as [plan|] eqn:Hplan; [|discriminate].
  injection Hdel as <-. exists plan. rewrite State_update_all in *.
  cbn [AppState.vendor_plans AppState.environments] in *.
  repeat split; try reflexivity.
  - intros Hassigned. rewrite perEnv_lookup.
    cbn [AppState.vendor_plans AppState.environments AppState.plan_assignment].
    rewrite H. cbn [fmap option_fmap option_map]. f_equal.
    unfold env_result, resolve_plan. rewrite lookup_fmap, Hassigned.
    cbn [fmap option_fmap option_map]. rewrite String.eqb_refl.
    apply plans_map_None in Hempty. rewrite Hempty. reflexivity.
  - intros Hother. rewrite !perEnv_lookup.
    cbn [AppState.vendor_plans AppState.environments AppState.plan_assignment].
    rewrite H. cbn [fmap option_fmap option_map]. f_equal.
    unfold env_result, resolve_plan. rewrite lookup_fmap.
    destruct (AppState.plan_assignment state !! Env.id env) as [assigned|] eqn:Ha;
      cbn [fmap option_fmap option_map]; [|reflexivity].
    destruct (String.eqb assigned (Plan.id plan)) eqn:E.
    + apply String.eqb_eq in E. subst assigned. contradiction.
    + apply String.eqb_neq in E.
      rewrite (plans_map_delete _ _ _ assigned Hplan) by congruence. reflexivity.
Qed.

Lemma delete_plan_unassigns_witness :
  (delete_plan 1 DEFAULT_STATE = Some stateE
   /\ ""%string ∉ (Plan.id <$> AppState.vendor_plans stateE))
  /\ Output.perEnv (fst (calculateAll stateE empty_frame)) !! 1%nat =
       Some (no_plan_result envStaging)
  /\ Output.perEnv (fst (calculateAll stateE empty_frame)) !! 0%nat =
       Output.perEnv (fst (calculateAll DEFAULT_STATE empty_frame)) !! 0%nat.
Proof.
  assert (Hdel : delete_plan 1 DEFAULT_STATE = Some stateE) by (vm_compute; reflexivity).
  assert (Hempty : ""%string ∉ (Plan.id <$> AppState.vendor_plans stateE)).
  { apply not_elem_of_cons. split; [discriminate | apply not_elem_of_nil]. }
  split; [split; assumption|].
  destruct (delete_plan_unassigns 1 DEFAULT_STATE stateE empty_frame Hdel Hempty)
    as (plan & Hplan & _ & _ & Hall).
  assert (Hp : AppState.vendor_plans DEFAULT_STATE !! 1%nat = Some planOpus)
    by reflexivity.
  rewrite Hp in Hplan. injection Hplan as <-.
  split.
  - apply (Hall 1%nat envStaging); reflexivity.
  - apply (Hall 0%nat envA); [reflexivity|]. vm_compute. discriminate.
Defined.

(** X15: deleting an environment removes its entry from [perEnv] and
    keeps all the others, in order, when the environment ids are pairwise
    distinct (the assignment of a second environment with the same id
    would be deleted with it). *)
Theorem delete_env_removes_entry (index : nat) (state state' : AppState.t)
    (s : Frame.t) :
  delete_env index state = Some state' ->
  NoDup (Env.id <$> AppState.environments state) ->
  AppState.vendor_plans state' = AppState.vendor_plans state
  /\ AppState.environments state' = delete index (AppState.environments state)
  /\ Output.perEnv (fst (calculateAll state' s)) =
     delete index (Output.perEnv (fst (calculateAll state s))).
Proof.
  unfold delete_env. intros Hdel Hnd.
  destruct (AppState.environments state !! index) as [env|] eqn:Henv; [|discriminate].
  injection Hdel as <-. rewrite State_update_all.
  cbn [AppState.vendor_plans AppState.environments].
  repeat split.
  rewrite !calculateAll_eq.
  cbn [fst Output.perEnv AppState.vendor_plans AppState.environments
       AppState.plan_assignment].
  rewrite <- list_fmap_delete. apply list_fmap_ext. intros i e Hi.
  apply env_result_ext. unfold resolve_plan.
  rewrite lookup_delete_ne; [reflexivity|].
  apply list_elem_of_split_length in Henv. destruct Henv as (l1 & l2 & Hsplit & ->).
  rewrite Hsplit in Hnd, Hi. rewrite delete_middle in Hi.
  rewrite fmap_app, fmap_cons in Hnd.
  apply NoDup_app in Hnd. destruct Hnd as (_ & Hl1 & Hnd).
  apply NoDup_cons in Hnd. destruct Hnd as [Hl2 _].
  apply list_elem_of_lookup_2 in Hi. apply elem_of_app in Hi.
  intros Heq. destruct Hi as [Hi | Hi].
  - apply (Hl1 (Env.id e)).
    + apply list_elem_of_fmap. exists e. split; [reflexivity | exact Hi].
    + rewrite <- Heq. apply elem_of_cons. left. reflexivity.
  - apply Hl2. rewrite Heq. apply list_elem_of_fmap. exists e.
    split; [reflexivity | exact Hi].
Qed.

Lemma delete_env_removes_entry_witness :
  (delete_env 0 DEFAULT_STATE = Some stateEnvDeleted
   /\ NoDup (Env.id <$> AppState.environments DEFAULT_STATE))
  /\ Output.perEnv (fst (calculateAll stateEnvDeleted empty_frame)) =
     delete 0%nat (Output.perEnv (fst (calculateAll DEFAULT_STATE empty_frame))).
Proof.
  assert (Hdel : delete_env 0 DEFAULT_STATE = Some stateEnvDeleted) by reflexivity.
  assert (Hnd : NoDup (Env.id <$> AppState.environments DEFAULT_STATE)).
  { apply NoDup_cons. split.
    - apply not_elem_of_cons. split; [discriminate | apply not_elem_of_nil].
    - apply NoDup_cons. split; [apply not_elem_of_nil | apply NoDup_nil_2]. }
  split; [split; assumption|].
  destruct (delete_env_removes_entry 0 DEFAULT_STATE stateEnvDeleted empty_frame
              Hdel Hnd) as (_ & _ & H).
  exact H.
Defined.

(** X16: a new environment is appended without a plan: when the
    assignment has no entry for its id, [calculateAll] gives the previous
    entries followed by the error entry of the new environment, and the
    same totals. *)
Theorem add_env_appends_error_entry (now : Z) (state : AppState.t) (s : Frame.t) :
  AppState.plan_assignment state !! ("env_" ++ digits now)%string = None ->
  Output.perEnv (fst (calculateAll (add_env now state) s)) =
    Output.perEnv (fst (calculateAll state s)) ++
    [ErrorResult ("env_" ++ digits now) "New Environment"
                 "No valid plan assigned." "N/A"]
  /\ Output.totals (fst (calculateAll (add_env now state) s)) =
     Output.totals (fst (calculateAll state s)).
Proof.
  intros Hfresh. rewrite !calculateAll_eq.
  cbn [fst Output.perEnv Output.totals add_env State_update Partial.environments
       Partial.vendor_plans Partial.plan_assignment default from_option id
       AppState.environments AppState.vendor_plans AppState.plan_assignment].
  set (pm := plans_map (AppState.vendor_plans state)).
  set (pa := AppState.plan_assignment state) in *.
  assert (Hres : resolve_plan pm pa (new_env now) = None)
    by (unfold resolve_plan; cbn [new_env Env.id]; rewrite Hfresh; reflexivity).
  split.
  - rewrite fmap_app. f_equal. cbn [fmap list_fmap].
    unfold env_result. rewrite Hres. reflexivity.
  - rewrite foldl_app. cbn [foldl]. unfold totals_step at 1. rewrite Hres. reflexivity.
Qed.

Lemma add_env_appends_error_entry_witness :
  AppState.plan_assignment DEFAULT_STATE !! ("env_" ++ digits 1700000000000)%string = None
  /\ Output.perEnv (fst (calculateAll (add_env 1700000000000 DEFAULT_STATE) empty_frame)) =
       Output.perEnv (fst (calculateAll DEFAULT_STATE empty_frame)) ++
       [ErrorResult "env_1700000000000" "New Environment"
                    "No valid plan assigned." "N/A"].
Proof.
  assert (H : AppState.plan_assignment DEFAULT_STATE
                !! ("env_" ++ digits 1700000000000)%string = None) by reflexivity.
  split; [exact H|].
  destruct (add_env_appends_error_entry 1700000000000 DEFAULT_STATE empty_frame H)
    as [Hper _].
  exact Hper.
Defined.

(** X17: adding a plan changes no result when no environment is
    assigned the new plan's id. *)
Theorem add_plan_keeps_results (now : Z) (state : AppState.t) (s : Frame.t) :
  (forall env : Env.t, env ∈ AppState.environments state ->
     AppState.plan_assignment state !! Env.id env <>
     Some ("plan_" ++ digits now)%string) ->
  fst (calculateAll (add_plan now state) s) = fst (calculateAll state s).
Proof.
  intros Hfresh. apply calculateAll_ext; [reflexivity|].
  intros env Henv. specialize (Hfresh env Henv).
  unfold resolve_plan.
  cbn [add_plan State_update Partial.environments Partial.vendor_plans
       Partial.plan_assignment default from_option id
       AppState.environments AppState.vendor_plans AppState.plan_assignment].
  destruct (AppState.plan_assignment state !! Env.id env) as [planId|]; [|reflexivity].
  apply plans_map_snoc. cbn [new_plan Plan.id]. congruence.
Qed.

Lemma add_plan_keeps_results_witness :
  (forall env : Env.t, env ∈ AppState.environments DEFAULT_STATE ->
     AppState.plan_assignment DEFAULT_STATE !! Env.id env <>
     Some ("plan_" ++ digits 1700000000000)%string)
  /\ fst (calculateAll (add_plan 1700000000000 DEFAULT_STATE) empty_frame) =
     fst (calculateAll DEFAULT_STATE empty_frame).
Proof.
  assert (H : forall env : Env.t, env ∈ AppState.environments DEFAULT_STATE ->
     AppState.plan_assignment DEFAULT_STATE !! Env.id env <>
     Some ("plan_" ++ digits 1700000000000)%string).
  { intros env Hin. apply elem_of_cons in Hin. destruct Hin as [-> | Hin].
    - vm_compute. discriminate.
    - apply elem_of_cons in Hin. destruct Hin as [-> | Hin].
      + vm_compute. discriminate.
      + apply elem_of_nil in Hin. contradiction. }
  split; [exact H|].
  exact (add_plan_keeps_results 1700000000000 DEFAULT_STATE empty_frame H).
Defined.

(** X18: picking a plan in the selector of an environment re-evaluates
    the environments with that id against the picked plan (the error
    entry when the value is the id of no plan, as for the empty option)
    and leaves every other entry as it was. *)
Theorem assign_plan_effect (el : Input.t) (state state' : AppState.t) (s : Frame.t) :
  updateStateFromInput el "assignment" state = Some state' ->
  exists planId : string,
    input_value el = Str planId
    /\ AppState.environments state' = AppState.environments state
    /\ AppState.vendor_plans state' = AppState.vendor_plans state
    /\ forall (i : nat) (env : Env.t),
         AppState.environments state !! i = Some env ->
         (Env.id env = Input.envId el ->
          Output.perEnv (fst (calculateAll state' s)) !! i =
          Some (match plans_map (AppState.vendor_plans state) !! planId with
                | Some plan => Costed (evaluate env plan)
                | None => no_plan_result env
                end))
         /\ (Env.id env <> Input.envId el ->
             Output.perEnv (fst (calculateAll state' s)) !! i =
             Output.perEnv (fst (calculateAll state s)) !! i).
Proof.
  unfold updateStateFromInput. cbn [String.eqb Ascii.eqb Bool.eqb].
  intros Hupd. destruct (input_value el) as [q | planId]; [discriminate|].
  injection Hupd as <-. exists planId. rewrite State_update_all.
  cbn [AppState.vendor_plans AppState.environments].
  repeat split.
  - intros Hid. rewrite perEnv_lookup.
    cbn [AppState.vendor_plans AppState.environments AppState.plan_assignment].
    rewrite H. cbn [fmap option_fmap option_map]. f_equal.
    unfold env_result, resolve_plan. rewrite Hid, lookup_insert_eq. reflexivity.
  - intros Hid. rewrite !perEnv_lookup.
    cbn [AppState.vendor_plans AppState.environments AppState.plan_assignment].
    rewrite H. cbn [fmap option_fmap option_map]. f_equal.
    unfold env_result, resolve_plan. rewrite lookup_insert_ne by congruence.
    reflexivity.
Qed.

Lemma assign_plan_effect_witness :
  updateStateFromInput (plan_selector "env_1" "plan_2") "assignment" DEFAULT_STATE =
    Some stateReassigned
  /\ Output.perEnv (fst (calculateAll stateReassigned empty_frame)) !! 0%nat =
     Some (Costed (evaluate envA planOpus)).
Proof.
  assert (H : updateStateFromInput (plan_selector "env_1" "plan_2") "assignment"
                DEFAULT_STATE = Some stateReassigned) by reflexivity.
  split; [exact H|].
  destruct (assign_plan_effect _ DEFAULT_STATE stateReassigned empty_frame H)
    as (planId & Hv & _ & _ & Hall).
  injection Hv as <-.
  destruct (Hall 0%nat envA eq_refl) as [Hsame _].
  rewrite (Hsame eq_refl). reflexivity.
Defined.

(** ** Number inputs *)

Lemma input_value_number (el : Input.t) :
  Input.type el = "number"%string ->
  exists v : Q,
    input_value el = Num v
    /\ (forall M, Input.max el = Some M -> v <= M)
    /\ (forall m, Input.min el = Some m ->
          (forall M, Input.max el = Some M -> m <= M) -> m <= v).
Proof.
  intros Htype. unfold input_value. rewrite Htype. cbn [String.eqb Ascii.eqb Bool.eqb].
  cbv zeta. set (x := JS.nullish (Input.parsed el) 0).
  destruct (Input.min el) as [m|]; destruct (Input.max el) as [M|].
  - set (y := if JS.gt m x then m else x).
    assert (Hy : m <= y).
    { unfold y. destruct (JS.gt m x) eqn:E; [lra|]. apply gt_false in E. exact E. }
    destruct (JS.gt y M) eqn:E; eexists; split; try reflexivity; split.
    + intros M' [= <-]. lra.
    + intros m' [= <-] Hmm. apply Hmm. reflexivity.
    + intros M' [= <-]. apply gt_false in E. exact E.
    + intros m' [= <-] _. exact Hy.
  - eexists; split; [reflexivity|]. split; [discriminate|].
    intros m' [= <-] _. destruct (JS.gt m x) eqn:E; [lra|].
    apply gt_false in E. exact E.
  - destruct (JS.gt x M) eqn:E; eexists; split; try reflexivity;
      (split; [|discriminate]).
    + intros M' [= <-]. lra.
    + intros M' [= <-]. apply gt_false in E. exact E.
  - eexists; split; [reflexivity|]. split; discriminate.
Qed.

(** X19: a number input never stores a value outside its bounds: the
    value is at most [max], at least [min] (when [min <= max]), an
    unparsable text counts as 0, and a parsed value within the bounds is
    stored as it is. *)
Theorem number_input_is_clamped (el : Input.t) :
  Input.type el = "number"%string ->
  exists v : Q,
    input_value el = Num v
    /\ (forall M, Input.max el = Some M -> v <= M)
    /\ (forall m, Input.min el = Some m ->
          (forall M, Input.max el = Some M -> m <= M) -> m <= v)
    /\ (forall x, JS.nullish (Input.parsed el) 0 = x ->
          (forall m, Input.min el = Some m -> m <= x) ->
          (forall M, Input.max el = Some M -> x <= M) -> v = x).
Proof.
  intros Htype. destruct (input_value_number el Htype) as (v & Hv & Hmax & Hmin).
  exists v. repeat split; try assumption.
  intros x Hx Hlow Hhigh. unfold input_value in Hv. rewrite Htype in Hv.
  cbn [String.eqb Ascii.eqb Bool.eqb] in Hv. cbv zeta in Hv. rewrite Hx in Hv.
  assert (E1 : match Input.min el with
               | Some min => if JS.gt min x then min else x
               | None => x
               end = x).
  { destruct (Input.min el) as [m|]; [|reflexivity].
    assert (E : JS.gt m x = false) by (apply gt_false; apply Hlow; reflexivity).
    rewrite E. reflexivity. }
  rewrite E1 in Hv.
  assert (E2 : match Input.max el with
               | Some max => if JS.gt x max then max else x
               | None => x
               end = x).
  { destruct (Input.max el) as [M|]; [|reflexivity].
    assert (E : JS.gt x M = false) by (apply gt_false; apply Hhigh; reflexivity).
    rewrite E. reflexivity. }
  rewrite E2 in Hv. congruence.
Qed.

Lemma number_input_is_clamped_witness :
  Input.type inputDays = "number"%string
  /\ input_value inputDays = Num 20.
Proof.
  split; [reflexivity|].
  destruct (number_input_is_clamped inputDays eq_refl) as (v & Hv & _ & _ & Hkeep).
  rewrite Hv. f_equal. apply (Hkeep 20).
  - reflexivity.
  - intros m [= <-]. vm_compute. discriminate.
  - intros M [= <-]. vm_compute. discriminate.
Defined.

Lemma update_at_Some {A : Type} (set : A -> option A) (index : nat)
    (items items' : list A) :
  update_at set index items = Some items' ->
  exists item item', items !! index = Some item /\ set item = Some item'
                     /\ items' = <[index := item']> items.
Proof.
  unfold update_at. intros H.
  destruct (items !! index) as [item|] eqn:Hitem; [|discriminate].
  destruct (set item) as [item'|] eqn:Hset; [|discriminate].
  injection H as <-. exists item, item'. split; [reflexivity|].
  split; [exact Hset | reflexivity].
Qed.

(** * The exporter *)

Lemma exportCSV_skips_errors (l : list EnvResult) (csv : string) :
  (forall r, r ∈ l -> exists a b c d, r = ErrorResult a b c d) ->
  foldl (fun csvContent res =>
           match res with
           | ErrorResult _ _ _ _ => csvContent
           | Costed r => (csvContent ++ String.concat "," (csv_row r) ++ CRLF)%string
           end) csv l = csv.
Proof.
  revert csv. induction l as [|r l IH]; intros csv Hall; [reflexivity|].
  cbn [foldl].
  destruct (Hall r) as (a & b & c & d & ->); [apply elem_of_cons; left; reflexivity|].
  apply IH. intros r' Hr'. apply Hall. apply elem_of_cons. right. exact Hr'.
Qed.

(** X22: the CSV export of the results of [calculateAll] downloads
    nothing exactly when the state has no environment; when there are
    environments but none has a plan, the file is the header line alone. *)
Theorem exportCSV_edge_cases (state : AppState.t) (s : Frame.t) :
  (exportCSV (fst (calculateAll state s)) = None <->
   AppState.environments state = [])
  /\ (AppState.environments state <> [] ->
      (forall env, env ∈ AppState.environments state ->
         unassigned (AppState.vendor_plans state) (AppState.plan_assignment state) env) ->
      exportCSV (fst (calculateAll state s)) =
      Some (String.concat "," csv_headers ++ CRLF)%string).
Proof.
  rewrite calculateAll_eq. cbn [fst]. unfold exportCSV. cbn [Output.perEnv].
  set (pm := plans_map (AppState.vendor_plans state)).
  set (pa := AppState.plan_assignment state).
  split.
  - destruct (AppState.environments state) as [|env envs].
    + split; reflexivity.
    + rewrite fmap_cons. split; discriminate.
  - intros Hne Hall.
    assert (Herr : forall r, r ∈ env_result pm pa <$> AppState.environments state ->
                     exists a b c d, r = ErrorResult a b c d).
    { intros r Hr. apply list_elem_of_fmap in Hr. destruct Hr as (e & -> & He).
      apply Hall in He. apply unassigned_resolve_plan in He.
      unfold env_result. fold pm pa in He. rewrite He.
      unfold no_plan_result. eauto. }
    destruct (AppState.environments state) as [|env envs]; [contradiction|].
    rewrite fmap_cons in *. f_equal.
    apply exportCSV_skips_errors. exact Herr.
Qed.

Lemma exportCSV_edge_cases_witness :
  (AppState.environments stateOrphan <> []
   /\ forall env, env ∈ AppState.environments stateOrphan ->
        unassigned (AppState.vendor_plans stateOrphan)
                   (AppState.plan_assignment stateOrphan) env)
  /\ exportCSV (fst (calculateAll stateOrphan empty_frame)) =
     Some (String.concat "," csv_headers ++ CRLF)%string.
Proof.
  assert (H1 : AppState.environments stateOrphan <> []) by discriminate.
  assert (H2 : forall env, env ∈ AppState.environments stateOrphan ->
             unassigned (AppState.vendor_plans stateOrphan)
                        (AppState.plan_assignment stateOrphan) env).
  { intros env Hin. apply elem_of_cons in Hin. destruct Hin as [-> | Hin].
    - right. left. split; [reflexivity|].
      apply not_elem_of_cons. split; [discriminate | apply not_elem_of_nil].
    - apply elem_of_nil in Hin. contradiction. }
  split; [split; assumption|].
  destruct (exportCSV_edge_cases stateOrphan empty_frame) as [_ H].
  exact (H H1 H2).
Defined.

(** X23: the escaping of the suggestion doubles every double quote and
    changes nothing else: the number of quotes doubles, a text without
    quotes is unchanged, and two different texts never escape to the same
    text. *)
Theorem escape_quotes_doubles (s : string) :
  count_char quote_char (escape_quotes s) = (2 * count_char quote_char s)%nat
  /\ (count_char quote_char s = O -> escape_quotes s = s)
  /\ (forall s' : string, escape_quotes s = escape_quotes s' -> s = s').
Proof.
  repeat split.
  - induction s as [|c s IH]; [reflexivity|].
    cbn [escape_quotes count_char].
    destruct (Ascii.eqb c quote_char) eqn:E; cbn [count_char].
    + rewrite Ascii.eqb_refl, IH. lia.
    + rewrite E. exact IH.
  - induction s as [|c s IH]; [reflexivity|].
    cbn [escape_quotes count_char].
    destruct (Ascii.eqb c quote_char); [discriminate|].
    intros H. rewrite (IH H). reflexivity.
  - induction s as [|c s IH]; intros [|c' s'];
      cbn [escape_quotes]; try reflexivity.
    + destruct (Ascii.eqb c' quote_char); discriminate.
    + destruct (Ascii.eqb c quote_char); discriminate.
    + destruct (Ascii.eqb c quote_char) eqn:E; destruct (Ascii.eqb c' quote_char) eqn:E'.
      * apply Ascii.eqb_eq in E, E'. subst c c'.
        intros [= H]. rewrite (IH s' H). reflexivity.
      * apply Ascii.eqb_neq in E'. intros [= H _]. congruence.
      * apply Ascii.eqb_neq in E. intros [= H _]. congruence.
      * intros [= -> H]. rewrite (IH s' H). reflexivity.
Qed.

Lemma escape_quotes_doubles_witness :
  count_char quote_char "reduce token usage by ~62% or raise budget." = O
  /\ escape_quotes "reduce token usage by ~62% or raise budget." =
     "reduce token usage by ~62% or raise budget."%string.
Proof.
  assert (H : count_char quote_char "reduce token usage by ~62% or raise budget." = O)
    by reflexivity.
  split; [exact H|].
  destruct (escape_quotes_doubles "reduce token usage by ~62% or raise budget.")
    as (_ & Hsame & _).
  exact (Hsame H).
Defined.

(** * The charts *)

Lemma Math_max_ge (a b : Q) : a <= JS.Math_max a b /\ b <= JS.Math_max a b.
Proof.
  unfold JS.Math_max. destruct (Qle_bool a b) eqn:E.
  - apply Qle_bool_iff in E. split; lra.
  - assert (b < a) by (apply gt_true; unfold JS.gt; rewrite E; reflexivity).
    split; lra.
Qed.

Lemma maxCost_bounds (perEnv : list EnvResult) :
  1 <= maxCost perEnv
  /\ forall r, r ∈ perEnv -> chart_cost r <= maxCost perEnv.
Proof.
  unfold maxCost. induction perEnv as [|x l [IH1 IH2]].
  - split; [cbn; lra|]. intros r Hr. apply elem_of_nil in Hr. contradiction.
  - rewrite fmap_cons. cbn [foldr].
    destruct (Math_max_ge (chart_cost x) (foldr JS.Math_max 1 (chart_cost <$> l)))
      as [Ha Hb].
    split; [lra|].
    intros r Hr. apply elem_of_cons in Hr. destruct Hr as [-> | Hr]; [exact Ha|].
    specialize (IH2 r Hr). lra.
Qed.

(** X24: the cost chart never divides by zero and never overflows: the
    scale [maxCost] is at least 1, and the bar of every costed entry is
    at most 100 percent wide, and not negative when its final cost is
    not. *)
Theorem cost_bars_fit (perEnv : list EnvResult) (res : Res.t) :
  Costed res ∈ perEnv ->
  1 <= maxCost perEnv
  /\ bar_width perEnv res <= 100
  /\ (0 <= Res.final_cost res -> 0 <= bar_width perEnv res).
Proof.
  intros Hin. destruct (maxCost_bounds perEnv) as [Hone Hall].
  specialize (Hall _ Hin).
  assert (Hcost : Res.final_cost res <= maxCost perEnv).
  { cbn [chart_cost JS.or_else] in Hall.
    destruct (Qeq_bool (Res.final_cost res) 0) eqn:E; [|exact Hall].
    apply Qeq_bool_iff in E. lra. }
  unfold bar_width. set (m := maxCost perEnv) in *.
  assert (Hq : Res.final_cost res / m * m == Res.final_cost res) by (field; lra).
  set (q := Res.final_cost res / m) in *.
  repeat split; [exact Hone | nra | intros Hpos; nra].
Qed.

Lemma cost_bars_fit_witness :
  Costed (evaluate envA planA) ∈ Output.perEnv (fst (calculateAll DEFAULT_STATE empty_frame))
  /\ bar_width (Output.perEnv (fst (calculateAll DEFAULT_STATE empty_frame)))
               (evaluate envA planA) <= 100.
Proof.
  assert (H : Costed (evaluate envA planA) ∈
              Output.perEnv (fst (calculateAll DEFAULT_STATE empty_frame))).
  { rewrite calculateAll_eq. apply elem_of_cons. left. reflexivity. }
  split; [exact H|].
  destruct (cost_bars_fit _ _ H) as (_ & Hw & _). exact Hw.
Defined.

(** * The plan selector *)

(** X26: the table and the engine agree on who has a plan: an
    environment's selector has an option marked as selected exactly when
    [calculateAll] gives the environment a costed entry. *)
Theorem selector_agrees_with_results (state : AppState.t) (s : Frame.t)
    (i : nat) (env : Env.t) :
  AppState.environments state !! i = Some env ->
  (true ∈ selected_options (AppState.vendor_plans state)
                           (AppState.plan_assignment state) env
   <-> exists r : Res.t,
         Output.perEnv (fst (calculateAll state s)) !! i = Some (Costed r)).
Proof.
  intros Henv. rewrite perEnv_lookup, Henv. cbn [fmap option_fmap option_map].
  unfold selected_options, env_result, resolve_plan. cbv zeta.
  destruct (AppState.plan_assignment state !! Env.id env) as [assigned|].
  - destruct (plans_map (AppState.vendor_plans state) !! assigned) as [plan|] eqn:Hplan.
    + split; [intros _; eexists; reflexivity|]. intros _.
      apply plans_map_Some in Hplan. destruct Hplan as [Hin Hid].
      apply list_elem_of_fmap. exists plan. split; [|exact Hin].
      rewrite Hid. symmetry. apply String.eqb_refl.
    + split; [|intros [r Hr]; discriminate].
      intros Hsel. exfalso. apply plans_map_None in Hplan. apply Hplan.
      apply list_elem_of_fmap in Hsel. destruct Hsel as (p & Hp & Hin).
      symmetry in Hp. apply String.eqb_eq in Hp.
      apply list_elem_of_fmap. exists p. split; [symmetry; exact Hp | exact Hin].
  - split; [|intros [r Hr]; discriminate].
    intros Hsel. apply list_elem_of_fmap in Hsel.
    destruct Hsel as (p & Hp & _). discriminate.
Qed.

Lemma selector_agrees_with_results_witness :
  AppState.environments DEFAULT_STATE !! 1%nat = Some envStaging
  /\ selected_options (AppState.vendor_plans DEFAULT_STATE)
                      (AppState.plan_assignment DEFAULT_STATE) envStaging
     = [false; true]
  /\ exists r : Res.t,
       Output.perEnv (fst (calculateAll DEFAULT_STATE empty_frame)) !! 1%nat =
       Some (Costed r).
Proof.
  assert (H : AppState.environments DEFAULT_STATE !! 1%nat = Some envStaging)
    by reflexivity.
  split; [exact H|]. split; [reflexivity|].
  apply (selector_agrees_with_results DEFAULT_STATE empty_frame 1 envStaging H).
  apply elem_of_cons. right. apply elem_of_cons. left. reflexivity.
Defined.

(** * Sanity checks on the controller and the exporter *)

(** The CSV row of the second environment of the default state. *)
Example csv_row_staging :
  csv_row (evaluate envStaging planOpus) =
  [ quote ++ "Staging" ++ quote; "RED"; quote ++ "Anthropic - Opus" ++ quote;
    "106.00"; "USD"; "50.00"; "USD"; "211.99";
    "3212000"; "2248400"; "963600"; "106.00";
    quote ++ "Budget shortfall of USD 56.00. To reach safety (sub-80%), reduce token usage by ~62% or raise budget." ++ quote ]%string.
Proof. vm_compute. reflexivity. Qed.

(** Deleting a plan or an environment that is not there throws. *)
Example delete_out_of_range :
  delete_plan 2 DEFAULT_STATE = None /\ delete_env 2 DEFAULT_STATE = None.
Proof. split; reflexivity. Qed.

(** In the default state the cost chart is scaled by the 105.996 of the
    second environment, whose bar is full. *)
Example default_state_chart :
  maxCost (Output.perEnv (fst (calculateAll DEFAULT_STATE empty_frame))) == 105.996
  /\ bar_width (Output.perEnv (fst (calculateAll DEFAULT_STATE empty_frame)))
               (evaluate envStaging planOpus) == 100
  /\ label_inside (bar_width (Output.perEnv (fst (calculateAll DEFAULT_STATE empty_frame)))
                             (evaluate envA planA)) = false.
Proof. repeat split; vm_compute; reflexivity. Qed.

(** * The handler on plain objects *)

Ltac object_eq :=
  apply map_eq; intros k; rewrite !lookup_insert;
  repeat case_decide; try congruence; try reflexivity.

Lemma object_set_plan_key (key : string) (value : Value) (p p' : Plan.t) :
  set_plan_key key value p = Some p' ->
  <[key := field_of value]> (object_of_plan p) = object_of_plan p'.
Proof.
  unfold set_plan_key. intros Hset.
  destruct value as [q | s];
    repeat match type of Hset with
    | context [String.eqb key ?k] =>
        destruct (String.eqb key k) eqn:Ek;
          [apply String.eqb_eq in Ek; subst key; injection Hset as <-;
           unfold object_of_plan, set_optional, set_free_tier_tokens,
             set_overage_multiplier;
           cbn [Plan.id Plan.vendor Plan.plan Plan.currency Plan.price_prompt_per_1k
                Plan.price_completion_per_1k Plan.monthly_commit_credit
                Plan.free_tier_tokens Plan.overage_multiplier field_of];
           destruct (Plan.overage_multiplier p), (Plan.free_tier_tokens p),
             (Plan.monthly_commit_credit p);
           cbn [fmap option_fmap option_map]; object_eq
          | clear Ek]
    end; discriminate.
Qed.

Lemma object_set_env_key (key : string) (value : Value) (e e' : Env.t) :
  set_env_key key value e = Some e' ->
  <[key := field_of value]> (object_of_env e) = object_of_env e'.
Proof.
  unfold set_env_key. intros Hset.
  destruct value as [q | s];
    repeat match type of Hset with
    | context [String.eqb key ?k] =>
        destruct (String.eqb key k) eqn:Ek;
          [apply String.eqb_eq in Ek; subst key; injection Hset as <-;
           unfold object_of_env, set_optional;
           cbn [Env.id Env.env_name Env.requests_per_day Env.avg_tokens_per_request
                Env.context_tokens Env.cache_hit_rate Env.cache_savings_factor
                Env.completion_share Env.days_per_month Env.budget_currency
                Env.monthly_budget Env.alert_thresholds field_of];
           destruct (Env.alert_thresholds e), (Env.completion_share e),
             (Env.cache_savings_factor e);
           cbn [fmap option_fmap option_map]; object_eq
          | clear Ek]
    end; discriminate.
Qed.

Lemma array_set_in_range {A : Type} (index : nat) (x : A) (items : list (option A)) :
  (index < length items)%nat -> array_set index x items = <[index := Some x]> items.
Proof.
  intros Hlt. unfold array_set. destruct (decide (index < length items)%nat); [reflexivity|].
  contradiction.
Qed.

Lemma array_set_past_end {A : Type} (index : nat) (x : A) (items : list (option A)) :
  (length items <= index)%nat ->
  array_set index x items = items ++ replicate (index - length items) None ++ [Some x]
  /\ length (array_set index x items) = S index
  /\ array_set index x items !! index = Some (Some x).
Proof.
  intros Hge. unfold array_set.
  destruct (decide (index < length items)%nat) as [Hlt | _]; [lia|].
  split; [reflexivity|]. split.
  - rewrite !length_app, length_replicate. cbn [length]. lia.
  - rewrite lookup_app_r by exact Hge.
    rewrite lookup_app_r by (rewrite length_replicate; lia).
    rewrite length_replicate.
    replace (index - length items - (index - length items))%nat with O by lia.
    reflexivity.
Qed.

(** The view on records is exact where it is defined: when the handler
    on records gives a state, the handler on objects, run on the objects
    of the old state, gives the objects of that state. *)
Lemma updateStateFromInput_refines (el : Input.t) (table : string)
    (state state' : AppState.t) :
  updateStateFromInput el table state = Some state' ->
  updateStateFromInput_objects el table (objects_of_state state) =
  objects_of_state state'.
Proof.
  unfold updateStateFromInput, updateStateFromInput_objects. intros Hupd.
  destruct (String.eqb table "plans").
  - destruct (update_at _ _ _) as [newPlans|] eqn:Hat; [|discriminate].
    injection Hupd as <-. rewrite State_update_all.
    apply update_at_Some in Hat. destruct Hat as (plan & plan' & Hplan & Hset & ->).
    unfold objects_of_state.
    cbn [Objects.environments Objects.vendor_plans Objects.plan_assignment
         AppState.environments AppState.vendor_plans AppState.plan_assignment].
    f_equal. unfold spread_at. rewrite list_lookup_fmap, Hplan.
    cbn [fmap option_fmap option_map].
    rewrite array_set_in_range
      by (rewrite length_fmap; apply lookup_lt_Some in Hplan; exact Hplan).
    rewrite (object_set_plan_key _ _ _ _ Hset), list_fmap_insert. reflexivity.
  - destruct (String.eqb table "envs").
    + destruct (update_at _ _ _) as [newEnvs|] eqn:Hat; [|discriminate].
      injection Hupd as <-. rewrite State_update_all.
      apply update_at_Some in Hat. destruct Hat as (env & env' & Henv & Hset & ->).
      unfold objects_of_state.
      cbn [Objects.environments Objects.vendor_plans Objects.plan_assignment
           AppState.environments AppState.vendor_plans AppState.plan_assignment].
      f_equal. unfold spread_at. rewrite list_lookup_fmap, Henv.
      cbn [fmap option_fmap option_map].
      rewrite array_set_in_range
        by (rewrite length_fmap; apply lookup_lt_Some in Henv; exact Henv).
      rewrite (object_set_env_key _ _ _ _ Hset), list_fmap_insert. reflexivity.
    + destruct (String.eqb table "assignment").
      * destruct (input_value el) as [q | planId]; [discriminate|].
        injection Hupd as <-. rewrite State_update_all. unfold objects_of_state.
        cbn [Objects.environments Objects.vendor_plans Objects.plan_assignment
             AppState.environments AppState.vendor_plans AppState.plan_assignment].
        f_equal. symmetry. apply fmap_insert.
      * injection Hupd as <-. destruct state; reflexivity.
Qed.

Lemma object_of_env_id (e : Env.t) :
  object_of_env e !! "id"%string = Some (FStr (Env.id e)).
Proof.
  unfold object_of_env, set_optional.
  destruct (Env.alert_thresholds e), (Env.completion_share e),
    (Env.cache_savings_factor e); cbn [fmap option_fmap option_map];
    repeat (rewrite lookup_insert_ne by discriminate); apply lookup_insert_eq.
Qed.

Lemma object_of_plan_id (p : Plan.t) :
  object_of_plan p !! "id"%string = Some (FStr (Plan.id p)).
Proof.
  unfold object_of_plan, set_optional.
  destruct (Plan.overage_multiplier p), (Plan.free_tier_tokens p),
    (Plan.monthly_commit_credit p); cbn [fmap option_fmap option_map];
    repeat (rewrite lookup_insert_ne by discriminate); apply lookup_insert_eq.
Qed.

Lemma number_input_shape (inputs : list (string * (option Q * option Q)))
    (index : nat) (key typed : string) (parsed : option Q) (el : Input.t) :
  number_input inputs index key typed parsed = Some el ->
  Input.type el = "number"%string /\ Input.index el = index /\ Input.key el = key.
Proof.
  unfold number_input. destruct (attributes_of key inputs) as [[min max]|]; [|discriminate].
  intros [= <-]. repeat split.
Qed.

Lemma env_edit_on_records (index : nat) (key typed : string) (parsed : option Q)
    (el : Input.t) (state : AppState.t) :
  number_input env_number_inputs index key typed parsed = Some el ->
  (index < length (AppState.environments state))%nat ->
  Forall env_valid (AppState.environments state) ->
  exists state' : AppState.t,
    updateStateFromInput el "envs" state = Some state'
    /\ Forall env_valid (AppState.environments state')
    /\ length (AppState.environments state') = length (AppState.environments state)
    /\ AppState.vendor_plans state' = AppState.vendor_plans state
    /\ AppState.plan_assignment state' = AppState.plan_assignment state.
Proof.
  intros Hel Hlt Hrange.
  apply lookup_lt_is_Some_2 in Hlt. destruct Hlt as [env Henv].
  pose proof (Forall_lookup_1 _ _ _ _ Hrange Henv)
    as ((Hreq & Havg & Hctx & Hhit & Hsav & Hshare & Hdays) & Hbudget).
  unfold updateStateFromInput. cbn [String.eqb Ascii.eqb Bool.eqb].
  unfold number_input in Hel. cbn [attributes_of env_number_inputs] in Hel.
  repeat match type of Hel with
  | context [String.eqb ?k key] =>
      destruct (String.eqb k key) eqn:Ek;
        [apply String.eqb_eq in Ek; subst key;
         cbn [String.eqb Ascii.eqb Bool.eqb] in Hel; injection Hel as <-;
         match goal with
         | |- context [input_value ?e] =>
             destruct (input_value_number e eq_refl) as (v & Hv & Hmax & Hmin);
             rewrite Hv
         end;
         unfold update_at; cbn [Input.index Input.key]; rewrite Henv;
         cbn [set_env_key String.eqb Ascii.eqb Bool.eqb];
         eexists; split; [reflexivity|]; rewrite State_update_all;
         cbn [AppState.vendor_plans AppState.environments AppState.plan_assignment];
         cbn [Input.min Input.max] in Hmax, Hmin;
         try (assert (Hlow : 0 <= v)
                by (apply (Hmin 0); [reflexivity | intros M [= <-]; lra]));
         try (assert (Hhigh : v <= 1) by (apply (Hmax 1); reflexivity));
         try (assert (Hlow : 1 <= v)
                by (apply (Hmin 1); [reflexivity | intros M [= <-]; lra]));
         split; [|split; [apply length_insert | split; reflexivity]];
         apply Forall_insert; [exact Hrange|];
         unfold env_valid, env_in_range; cbn; repeat split; try assumption; try lra
        | clear Ek]
  end.
  discriminate.
Qed.

(** X20: an edit through one of the number inputs of the environment
    table, arriving for a row that exists, rewrites that one field and
    keeps every environment within the ranges of the table (budget
    included), the number of environments, the plans and the
    assignment.  Arriving for a row that no longer exists (the handler
    runs 300 ms after the input), it is not refused: the array grows to
    [index + 1] slots and the new slot holds an object with the one
    edited key, which is the object of no environment. *)
Theorem env_edit_keeps_ranges (index : nat) (key typed : string) (parsed : option Q)
    (el : Input.t) (state : AppState.t) :
  number_input env_number_inputs index key typed parsed = Some el ->
  Forall env_valid (AppState.environments state) ->
  let result := updateStateFromInput_objects el "envs" (objects_of_state state) in
  ((index < length (AppState.environments state))%nat ->
   exists state' : AppState.t,
     result = objects_of_state state'
     /\ Forall env_valid (AppState.environments state')
     /\ length (AppState.environments state') = length (AppState.environments state)
     /\ AppState.vendor_plans state' = AppState.vendor_plans state
     /\ AppState.plan_assignment state' = AppState.plan_assignment state)
  /\ ((length (AppState.environments state) <= index)%nat ->
      length (Objects.environments result) = S index
      /\ (exists v : Q,
            Objects.environments result !! index = Some (Some {[key := FNum v]}))
      /\ forall state' : AppState.t, result <> objects_of_state state').
Proof.
  intros Hel Hrange result. split.
  - intros Hlt.
    destruct (env_edit_on_records index key typed parsed el state Hel Hlt Hrange)
      as (state' & Hupd & Hrest).
    exists state'. split; [|exact Hrest].
    apply updateStateFromInput_refines. exact Hupd.
  - intros Hge.
    destruct (number_input_shape _ _ _ _ _ _ Hel) as (Htype & Hindex & Hkey).
    destruct (input_value_number el Htype) as (v & Hv & _).
    assert (Hid : key <> "id"%string).
    { intros ->. unfold number_input in Hel. discriminate. }
    assert (Hlen : (length (Objects.environments (objects_of_state state)) <= index)%nat)
      by (cbn [objects_of_state Objects.environments]; rewrite length_fmap; exact Hge).
    assert (Henvs : Objects.environments result =
                    array_set index {[key := FNum v]}
                              (Objects.environments (objects_of_state state))).
    { unfold result, updateStateFromInput_objects.
      cbn [String.eqb Ascii.eqb Bool.eqb Objects.environments].
      rewrite Hv, Hindex, Hkey. cbn [field_of]. unfold spread_at.
      rewrite (lookup_ge_None_2 _ _ Hlen). rewrite insert_empty. reflexivity. }
    destruct (array_set_past_end index ({[key := FNum v]} : gmap string Field) _ Hlen)
      as (_ & Hlength & Hlookup).
    rewrite <- Henvs in Hlength, Hlookup.
    split; [exact Hlength|]. split; [exists v; exact Hlookup|].
    intros state' Heq. rewrite Heq in Hlookup.
    cbn [objects_of_state Objects.environments] in Hlookup.
    rewrite list_lookup_fmap in Hlookup.
    destruct (AppState.environments state' !! index) as [e|]; [|discriminate].
    cbn [fmap option_fmap option_map] in Hlookup. injection Hlookup as Hobj.
    pose proof (object_of_env_id e) as Hlook. rewrite Hobj in Hlook.
    rewrite lookup_singleton_ne in Hlook by exact Hid. discriminate.
Qed.

Lemma env_edit_keeps_ranges_witness :
  (number_input env_number_inputs 0 "cache_hit_rate" "7" (Some 7) = Some inputHitRate
   /\ number_input env_number_inputs 4 "cache_hit_rate" "7" (Some 7) = Some inputStaleEnv
   /\ Forall env_valid (AppState.environments DEFAULT_STATE)
   /\ (0 < length (AppState.environments DEFAULT_STATE))%nat
   /\ (length (AppState.environments DEFAULT_STATE) <= 4)%nat)
  /\ (exists state' : AppState.t,
        updateStateFromInput_objects inputHitRate "envs"
          (objects_of_state DEFAULT_STATE) = objects_of_state state'
        /\ Forall env_valid (AppState.environments state'))
  /\ length (Objects.environments
               (updateStateFromInput_objects inputStaleEnv "envs"
                  (objects_of_state DEFAULT_STATE))) = 5%nat.
Proof.
  assert (H1 : number_input env_number_inputs 0 "cache_hit_rate" "7" (Some 7)
               = Some inputHitRate) by reflexivity.
  assert (H2 : number_input env_number_inputs 4 "cache_hit_rate" "7" (Some 7)
               = Some inputStaleEnv) by reflexivity.
  assert (H3 : Forall env_valid (AppState.environments DEFAULT_STATE))
    by (repeat constructor; simpl; lra).
  assert (H4 : (0 < length (AppState.environments DEFAULT_STATE))%nat) by (simpl; lia).
  assert (H5 : (length (AppState.environments DEFAULT_STATE) <= 4)%nat) by (simpl; lia).
  split; [repeat split; assumption|]. split.
  - destruct (env_edit_keeps_ranges 0 "cache_hit_rate" "7" (Some 7) inputHitRate
                DEFAULT_STATE H1 H3) as [Hin _].
    destruct (Hin H4) as (state' & Heq & Hvalid & _).
    exists state'. split; assumption.
  - destruct (env_edit_keeps_ranges 4 "cache_hit_rate" "7" (Some 7) inputStaleEnv
                DEFAULT_STATE H2 H3) as [_ Hout].
    destruct (Hout H5) as (Hlen & _). exact Hlen.
Defined.

Lemma plan_edit_on_records (index : nat) (key typed : string) (parsed : option Q)
    (el : Input.t) (state : AppState.t) :
  number_input plan_number_inputs index key typed parsed = Some el ->
  (index < length (AppState.vendor_plans state))%nat ->
  Forall plan_nonneg (AppState.vendor_plans state) ->
  exists state' : AppState.t,
    updateStateFromInput el "plans" state = Some state'
    /\ Forall plan_nonneg (AppState.vendor_plans state')
    /\ length (AppState.vendor_plans state') = length (AppState.vendor_plans state)
    /\ AppState.environments state' = AppState.environments state
    /\ AppState.plan_assignment state' = AppState.plan_assignment state.
Proof.
  intros Hel Hlt Hrange.
  apply lookup_lt_is_Some_2 in Hlt. destruct Hlt as [plan Hplan].
  pose proof (Forall_lookup_1 _ _ _ _ Hrange Hplan)
    as (Hpp & Hpc & Hcommit & Hfree & Hmult).
  unfold updateStateFromInput. cbn [String.eqb Ascii.eqb Bool.eqb].
  unfold number_input in Hel. cbn [attributes_of plan_number_inputs] in Hel.
  repeat match type of Hel with
  | context [String.eqb ?k key] =>
      destruct (String.eqb k key) eqn:Ek;
        [apply String.eqb_eq in Ek; subst key;
         cbn [String.eqb Ascii.eqb Bool.eqb] in Hel; injection Hel as <-;
         match goal with
         | |- context [input_value ?e] =>
             destruct (input_value_number e eq_refl) as (v & Hv & Hmax & Hmin);
             rewrite Hv
         end;
         unfold update_at; cbn [Input.index Input.key]; rewrite Hplan;
         cbn [set_plan_key String.eqb Ascii.eqb Bool.eqb];
         eexists; split; [reflexivity|]; rewrite State_update_all;
         cbn [AppState.vendor_plans AppState.environments AppState.plan_assignment];
         cbn [Input.min Input.max] in Hmax, Hmin;
         assert (Hlow : 0 <= v) by (apply (Hmin 0); [reflexivity | intros M [= <-]]);
         split; [|split; [apply length_insert | split; reflexivity]];
         apply Forall_insert; [exact Hrange|];
         unfold plan_nonneg; cbn; repeat split; assumption
        | clear Ek]
  end.
  discriminate.
Qed.

(** X21: an edit through one of the number inputs of the plan table,
    arriving for a row that exists, rewrites that one field and keeps
    every plan's prices, commit credit, free tier and overage multiplier
    non-negative, the number of plans, the environments and the
    assignment.  Arriving for a row that no longer exists, it is not
    refused: the array grows to [index + 1] slots and the new slot holds
    an object with the one edited key (no id, no prices), which is the
    object of no plan. *)
Theorem plan_edit_keeps_nonneg (index : nat) (key typed : string) (parsed : option Q)
    (el : Input.t) (state : AppState.t) :
  number_input plan_number_inputs index key typed parsed = Some el ->
  Forall plan_nonneg (AppState.vendor_plans state) ->
  let result := updateStateFromInput_objects el "plans" (objects_of_state state) in
  ((index < length (AppState.vendor_plans state))%nat ->
   exists state' : AppState.t,
     result = objects_of_state state'
     /\ Forall plan_nonneg (AppState.vendor_plans state')
     /\ length (AppState.vendor_plans state') = length (AppState.vendor_plans state)
     /\ AppState.environments state' = AppState.environments state
     /\ AppState.plan_assignment state' = AppState.plan_assignment state)
  /\ ((length (AppState.vendor_plans state) <= index)%nat ->
      length (Objects.vendor_plans result) = S index
      /\ (exists v : Q,
            Objects.vendor_plans result !! index = Some (Some {[key := FNum v]}))
      /\ forall state' : AppState.t, result <> objects_of_state state').
Proof.
  intros Hel Hrange result. split.
  - intros Hlt.
    destruct (plan_edit_on_records index key typed parsed el state Hel Hlt Hrange)
      as (state' & Hupd & Hrest).
    exists state'. split; [|exact Hrest].
    apply updateStateFromInput_refines. exact Hupd.
  - intros Hge.
    destruct (number_input_shape _ _ _ _ _ _ Hel) as (Htype & Hindex & Hkey).
    destruct (input_value_number el Htype) as (v & Hv & _).
    assert (Hid : key <> "id"%string).
    { intros ->. unfold number_input in Hel. discriminate. }
    assert (Hlen : (length (Objects.vendor_plans (objects_of_state state)) <= index)%nat)
      by (cbn [objects_of_state Objects.vendor_plans]; rewrite length_fmap; exact Hge).
    assert (Hplans : Objects.vendor_plans result =
                     array_set index {[key := FNum v]}
                               (Objects.vendor_plans (objects_of_state state))).
    { unfold result, updateStateFromInput_objects.
      cbn [String.eqb Ascii.eqb Bool.eqb Objects.vendor_plans].
      rewrite Hv, Hindex, Hkey. cbn [field_of]. unfold spread_at.
      rewrite (lookup_ge_None_2 _ _ Hlen). rewrite insert_empty. reflexivity. }
    destruct (array_set_past_end index ({[key := FNum v]} : gmap string Field) _ Hlen)
      as (_ & Hlength & Hlookup).
    rewrite <- Hplans in Hlength, Hlookup.
    split; [exact Hlength|]. split; [exists v; exact Hlookup|].
    intros state' Heq. rewrite Heq in Hlookup.
    cbn [objects_of_state Objects.vendor_plans] in Hlookup.
    rewrite list_lookup_fmap in Hlookup.
    destruct (AppState.vendor_plans state' !! index) as [p|]; [|discriminate].
    cbn [fmap option_fmap option_map] in Hlookup. injection Hlookup as Hobj.
    pose proof (object_of_plan_id p) as Hlook. rewrite Hobj in Hlook.
    rewrite lookup_singleton_ne in Hlook by exact Hid. discriminate.
Qed.

Lemma plan_edit_keeps_nonneg_witness :
  (number_input plan_number_inputs 0 "overage_multiplier" "-3" (Some (-3))
     = Some inputMultiplier
   /\ number_input plan_number_inputs 5 "overage_multiplier" "2" (Some 2)
     = Some inputStalePlan
   /\ Forall plan_nonneg (AppState.vendor_plans DEFAULT_STATE)
   /\ (0 < length (AppState.vendor_plans DEFAULT_STATE))%nat
   /\ (length (AppState.vendor_plans DEFAULT_STATE) <= 5)%nat)
  /\ (exists state' : AppState.t,
        updateStateFromInput_objects inputMultiplier "plans"
          (objects_of_state DEFAULT_STATE) = objects_of_state state'
        /\ Forall plan_nonneg (AppState.vendor_plans state'))
  /\ length (Objects.vendor_plans
               (updateStateFromInput_objects inputStalePlan "plans"
                  (objects_of_state DEFAULT_STATE))) = 6%nat.
Proof.
  assert (H1 : number_input plan_number_inputs 0 "overage_multiplier" "-3" (Some (-3))
               = Some inputMultiplier) by reflexivity.
  assert (H2 : number_input plan_number_inputs 5 "overage_multiplier" "2" (Some 2)
               = Some inputStalePlan) by reflexivity.
  assert (H3 : Forall plan_nonneg (AppState.vendor_plans DEFAULT_STATE))
    by (repeat constructor; simpl; lra).
  assert (H4 : (0 < length (AppState.vendor_plans DEFAULT_STATE))%nat) by (simpl; lia).
  assert (H5 : (length (AppState.vendor_plans DEFAULT_STATE) <= 5)%nat) by (simpl; lia).
  split; [repeat split; assumption|]. split.
  - destruct (plan_edit_keeps_nonneg 0 "overage_multiplier" "-3" (Some (-3))
                inputMultiplier DEFAULT_STATE H1 H3) as [Hin _].
    destruct (Hin H4) as (state' & Heq & Hvalid & _).
    exists state'. split; assumption.
  - destruct (plan_edit_keeps_nonneg 5 "overage_multiplier" "2" (Some 2)
                inputStalePlan DEFAULT_STATE H2 H3) as [_ Hout].
    destruct (Hout H5) as (Hlen & _). exact Hlen.
Defined.
